(** * Loan approval pipeline

    A shallow embedding of the decision logic of the prediction service
    ([ec2/ml-api-ec2.py]: [predict_rule_based], [predict_batch],
    [get_cached_data], [load_predictions_fast], [get_latest]) and of the
    record normaliser ([lambdas/lambda-loan-processor.py]:
    [process_loan_applications]).

    Python values are the values [json.loads] produces.  A Python
    exception is an explicit [Raise]; mutable state (the local variables of
    a request handler, the process-wide [CACHE], the clock) is threaded
    through a state-and-exception monad, so that what a handler did before
    it raised stays done, as in Python. *)

From Stdlib Require Import ZArith Floats Lia.
From stdpp Require Import base option gmap strings list pretty.

Set Default Proof Using "Type".
#[local] Set Warnings "-inexact-float,-register-all".

(** ** Python values *)

Module Py.

(** What [json.loads] (and Flask's [get_json]) can return. *)
Inductive pyval : Type :=
  | VNone
  | VBool (b : bool)
  | VInt (n : Z)
  | VFloat (x : float)
  | VStr (s : string)
  | VList (l : list pyval)
  | VDict (m : gmap string pyval).

(** The exception classes the modelled code can meet. *)
Inductive exn : Type :=
  | TypeError
  | AttributeError
  | KeyError
  | IndexError
  | ValueError
  | OverflowError
  | ZeroDivisionError
  | ExternalError.

Inductive result (A : Type) : Type :=
  | Ok (a : A)
  | Raise (e : exn).
Arguments Ok {A} a.
Arguments Raise {A} e.

Definition is_ok {A} (r : result A) : bool :=
  match r with Ok _ => true | Raise _ => false end.

Definition rbind {A B} (r : result A) (k : A → result B) : result B :=
  match r with Ok a => k a | Raise e => Raise e end.

(** [x or y] and [x and y] on conditions: the right operand is evaluated
    only when the left one does not decide. *)
Definition py_or (a : result bool) (b : result bool) : result bool :=
  rbind a (λ x, if x then Ok true else b).
Definition py_and (a : result bool) (b : result bool) : result bool :=
  rbind a (λ x, if x then b else Ok false).

(** *** Numbers *)

(** The value of an [int] as a (not necessarily normalised) binary float
    specification. *)
Definition SF_of_Z (n : Z) : spec_float :=
  match n with
  | Z0 => S754_zero false
  | Zpos p => S754_finite false p 0
  | Zneg p => S754_finite true p 0
  end.

(** [float(n)] for an [int]: the nearest double, ties to even. *)
Definition float_of_Z (n : Z) : float :=
  SF2Prim (binary_normalize prec emax n 0 false).

(** Exact comparison of a double with an integer, as Python compares a
    [float] with an [int]; [None] when the double is NaN. *)
Definition float_cmp_Z (x : float) (n : Z) : option comparison :=
  match Prim2SF x with
  | S754_nan => None
  | S754_zero _ => Some (0 ?= n)%Z
  | S754_infinity s => Some (if s then Lt else Gt)
  | S754_finite s m e =>
      let sm := if s then Zneg m else Zpos m in
      Some (if (0 <=? e)%Z then (sm * 2 ^ e ?= n)%Z
            else (sm ?= n * 2 ^ (- e))%Z)
  end.

Inductive num : Type :=
  | NInt (n : Z)
  | NFloat (x : float).

(** [a < b] on Python numbers. *)
Definition num_ltb (a b : num) : bool :=
  match a, b with
  | NInt m, NInt n => (m <? n)%Z
  | NFloat x, NFloat y => (x <? y)%float
  | NFloat x, NInt n =>
      match float_cmp_Z x n with Some Lt => true | _ => false end
  | NInt n, NFloat x =>
      match float_cmp_Z x n with Some Gt => true | _ => false end
  end.

(** The numeric reading of a value; [bool] is a subclass of [int]. *)
Definition as_num (v : pyval) : option num :=
  match v with
  | VBool b => Some (NInt (if b then 1 else 0))
  | VInt n => Some (NInt n)
  | VFloat x => Some (NFloat x)
  | _ => None
  end.

(** [v < c] and [v > c] for a numeric constant [c]: ordering a [str],
    [None], [list] or [dict] against a number is a [TypeError]. *)
Definition py_lt (v : pyval) (c : num) : result bool :=
  match as_num v with
  | Some a => Ok (num_ltb a c)
  | None => Raise TypeError
  end.
Definition py_gt (v : pyval) (c : num) : result bool :=
  match as_num v with
  | Some a => Ok (num_ltb c a)
  | None => Raise TypeError
  end.

(** [v == s] for a string literal [s]: never raises. *)
Definition py_eq_str (v : pyval) (s : string) : bool :=
  match v with
  | VStr t => bool_decide (t = s)
  | _ => false
  end.

(** Truth value of a Python object, as [if v:] and [not v] take it. *)
Definition truthy (v : pyval) : bool :=
  match v with
  | VNone => false
  | VBool b => b
  | VInt n => negb (n =? 0)%Z
  | VFloat x => negb (x =? 0)%float
  | VStr s => negb (bool_decide (s = ""))
  | VList l => match l with [] => false | _ => true end
  | VDict m => negb (bool_decide (m = ∅))
  end.

(** [o.get(k, d)]: only a [dict] has the method. *)
Definition py_get (o : pyval) (k : string) (d : pyval) : result pyval :=
  match o with
  | VDict m => Ok (default d (m !! k))
  | _ => Raise AttributeError
  end.

(** [o[k]] for a string key [k]. *)
Definition py_getitem (o : pyval) (k : string) : result pyval :=
  match o with
  | VDict m => match m !! k with Some v => Ok v | None => Raise KeyError end
  | _ => Raise TypeError
  end.

(** The elements a [for] loop or a comprehension visits. *)
Definition py_iter (o : pyval) : result (list pyval) :=
  match o with
  | VList l => Ok l
  | VStr s => Ok ((λ c, VStr (String c EmptyString)) <$> String.list_ascii_of_string s)
  | VDict m => Ok ((λ kv, VStr kv.1) <$> map_to_list m)
  | _ => Raise TypeError
  end.

(** [len(o)]. *)
Definition py_len (o : pyval) : result Z :=
  match o with
  | VList l => Ok (Z.of_nat (length l))
  | VStr s => Ok (Z.of_nat (String.length s))
  | VDict m => Ok (Z.of_nat (size m))
  | _ => Raise TypeError
  end.

End Py.
Export Py.

(** ** The rule-based decision: [predict_rule_based] *)

Module Rules.

Definition predict_rule_based (record : pyval) : result (string * float) :=
  rbind (py_get record "loan_percent_income" (VInt 0)) (λ loan_percent_income,
  rbind (py_get record "person_income" (VInt 0)) (λ person_income,
  rbind (py_get record "loan_amnt" (VInt 0)) (λ loan_amnt,
  rbind (py_get record "previous_loan_defaults_on_file" (VStr "No")) (λ previous_defaults,
  rbind (py_or (Ok (py_eq_str previous_defaults "Yes"))
               (py_gt loan_percent_income (NFloat 0.4))) (λ c1,
  if c1 then Ok ("REJECTED", 0.75%float) else
  rbind (py_and (py_lt loan_percent_income (NFloat 0.2))
                (py_gt person_income (NInt 50000))) (λ c2,
  if c2 then Ok ("APPROVED", 0.80%float) else
  rbind (py_and (py_gt loan_amnt (NInt 35000))
                (py_lt person_income (NInt 40000))) (λ c3,
  if c3 then Ok ("REJECTED", 0.70%float) else
  Ok ("APPROVED", 0.65%float)))))))).

(** The rule table in the words of the specification, on the four typed
    fields of a canonical record. *)
Definition rule1 (defaults : string) (lpi : float) : bool :=
  bool_decide (defaults = "Yes") || num_ltb (NFloat 0.4) (NFloat lpi).
Definition rule2 (lpi inc : float) : bool :=
  num_ltb (NFloat lpi) (NFloat 0.2) && num_ltb (NInt 50000) (NFloat inc).
Definition rule3 (inc amt : float) : bool :=
  num_ltb (NInt 35000) (NFloat amt) && num_ltb (NFloat inc) (NInt 40000).

Definition rule_cascade (defaults : string) (lpi inc amt : float)
  : string * float :=
  if rule1 defaults lpi then ("REJECTED", 0.75%float)
  else if rule2 lpi inc then ("APPROVED", 0.80%float)
  else if rule3 inc amt then ("REJECTED", 0.70%float)
  else ("APPROVED", 0.65%float).

End Rules.

(** ** The record schema *)

Module Schema.

Definition int_fields : list string :=
  ["person_age"; "person_emp_exp"; "cb_person_cred_hist_length"].
Definition float_fields : list string :=
  ["person_income"; "loan_amnt"; "loan_int_rate"; "loan_percent_income"].
Definition string_fields : list string :=
  ["person_gender"; "employment_type"; "person_home_ownership";
   "loan_intent"; "account_type"; "person_education";
   "previous_loan_defaults_on_file"; "application_id"; "timestamp"].
Definition schema_fields : list string :=
  int_fields ++ float_fields ++ string_fields.

Definition is_int (v : option pyval) : bool :=
  match v with Some (VInt _) => true | _ => false end.
Definition is_float (v : option pyval) : bool :=
  match v with Some (VFloat _) => true | _ => false end.
Definition is_str (v : option pyval) : bool :=
  match v with Some (VStr _) => true | _ => false end.

(** A canonical record: every schema field present with its declared
    type. *)
Definition canonical (r : gmap string pyval) : bool :=
  forallb (λ k, is_int (r !! k)) int_fields
  && forallb (λ k, is_float (r !! k)) float_fields
  && forallb (λ k, is_str (r !! k)) string_fields.

End Schema.

(** ** State and exceptions *)

Module Eff.

(** A computation over a mutable state [S] that returns or raises; the
    state reached is kept in both cases. *)
Definition M (S A : Type) : Type := S → result A * S.

Definition ret {S A} (a : A) : M S A := λ s, (Ok a, s).
Definition raise {S A} (e : exn) : M S A := λ s, (Raise e, s).
Definition lift {S A} (r : result A) : M S A := λ s, (r, s).
Definition bind {S A B} (m : M S A) (k : A → M S B) : M S B :=
  λ s, match m s with
       | (Ok a, s') => k a s'
       | (Raise e, s') => (Raise e, s')
       end.
Definition get {S} : M S S := λ s, (Ok s, s).
Definition modify {S} (f : S → S) : M S unit := λ s, (Ok tt, f s).

(** [try: body except Exception as e: handler]. *)
Definition try_except {S A} (body : M S A) (handler : exn → M S A) : M S A :=
  λ s, match body s with
       | (Ok a, s') => (Ok a, s')
       | (Raise e, s') => handler e s'
       end.

(** [for x in l: body]. *)
Fixpoint for_each {S A} (l : list A) (body : A → M S unit) : M S unit :=
  match l with
  | [] => ret tt
  | x :: rest => bind (body x) (λ _, for_each rest body)
  end.

End Eff.
Export Eff.

Notation "'let*' x ':=' m 'in' k" := (bind m (λ x, k))
  (at level 10, x pattern, m at level 100, k at level 200).
Notation "m ;; k" := (bind m (λ _, k))
  (at level 100, k at level 200, right associativity).

(** ** Python arithmetic used by the statistics *)

Module Arith.

(** [a / b] on two [int]s: the correctly rounded quotient. *)
Definition int_truediv (a b : Z) : result float :=
  if (b =? 0)%Z then Raise ZeroDivisionError
  else Ok (SF2Prim (SFdiv prec emax (SF_of_Z a) (SF_of_Z b))).

(** [round(x, ndigits)] for a [float] and [ndigits >= 0]: the double
    nearest to the decimal with [ndigits] places nearest to [x], ties to
    the even last digit. *)
Definition py_round (x : float) (ndigits : Z) : float :=
  match Prim2SF x with
  | S754_finite s m e =>
      if (0 <=? e)%Z then x
      else
        let scale := (10 ^ ndigits)%Z in
        let num := (Zpos m * scale)%Z in
        let den := (2 ^ (- e))%Z in
        let q := (num / den)%Z in
        let r := (num mod den)%Z in
        let k := if (2 * r <? den)%Z then q
                 else if (den <? 2 * r)%Z then (q + 1)%Z
                 else if Z.even q then q else (q + 1)%Z in
        match k with
        | Z0 => if s then neg_zero else zero
        | _ => SF2Prim (SFdiv prec emax
                          (SF_of_Z (if s then (- k)%Z else k)) (SF_of_Z scale))
        end
  | _ => x
  end.

End Arith.

(** ** What a request handler returns *)

Module Http.

(** [jsonify(body)] with its status (200 when the handler gives none). *)
Inductive response : Type :=
  | Response (status : Z) (body : pyval).
Definition status (r : response) : Z := let 'Response c _ := r in c.
Definition body (r : response) : pyval := let 'Response _ b := r in b.

End Http.
Export Http.

(** ** Batch scoring: [predict_batch] *)

Module Batch.
Import Rules Arith.

(** The loaded pipeline, as far as [predict_batch] uses it, on the feature
    row of one record: [predict] is [model.predict(X)[0]] and
    [predict_proba] is [model.predict_proba(X)[0]]. *)
Record Classifier : Type := {
  predict : list pyval → result Z;
  predict_proba : list pyval → result (list float)
}.

Definition feature_cols : list string :=
  ["person_age"; "person_income"; "person_emp_exp"; "loan_amnt";
   "loan_int_rate"; "loan_percent_income"; "cb_person_cred_hist_length";
   "person_gender"; "employment_type"; "person_home_ownership";
   "loan_intent"; "account_type"; "person_education";
   "previous_loan_defaults_on_file"].

(** [pd.DataFrame([record])[feature_cols]]: a column that [record] does not
    have is a [KeyError]. *)
Fixpoint select_columns (m : gmap string pyval) (cols : list string)
  : result (list pyval) :=
  match cols with
  | [] => Ok []
  | c :: rest =>
      match m !! c with
      | Some v => rbind (select_columns m rest) (λ vs, Ok (v :: vs))
      | None => Raise KeyError
      end
  end.
Definition features (record : pyval) : result (list pyval) :=
  match record with
  | VDict m => select_columns m feature_cols
  | _ => Raise KeyError
  end.

(** [a[i]] on an array: a negative index counts from the end. *)
Definition array_index {A} (a : list A) (i : Z) : result A :=
  let n := Z.of_nat (length a) in
  let j := if (i <? 0)%Z then (i + n)%Z else i in
  if (0 <=? j)%Z && (j <? n)%Z then
    match a !! Z.to_nat j with Some x => Ok x | None => Raise IndexError end
  else Raise IndexError.

(** The body of the inner [try] of the loop. *)
Definition model_predict (m : Classifier) (record : pyval)
  : result (string * float) :=
  rbind (features record) (λ X,
  rbind (predict m X) (λ pred_class,
  rbind (predict_proba m X) (λ pred_proba,
  rbind (array_index pred_proba pred_class) (λ confidence,
  let prediction := if (pred_class =? 1)%Z then "APPROVED" else "REJECTED" in
  Ok (prediction, confidence))))).

(** The local variables of one request, and the number of clock readings
    taken so far. *)
Record Frame : Type := {
  predictions : list pyval;
  approved_count : Z;
  rejected_count : Z;
  ticks : nat
}.

Section predict_batch.

(** The process clock: [clock n] is what the [n]-th call of
    [datetime.now()] returns (microseconds), [isoformat] its rendering,
    [str_exn] the text of an exception. *)
Variable clock : nat → Z.
Variable isoformat : Z → string.
Variable str_exn : exn → string.
(** The global [model]. *)
Variable model : option Classifier.

(** The decision for one record (the [if use_model:] statement of the
    loop): the model's when it is used and its call returns, the rules'
    otherwise.  A call on an unloaded model would raise inside the inner
    [try]. *)
Definition decide (use_model : bool) (record : pyval)
  : result (string * float) :=
  if use_model then
    match model with
    | Some m =>
        match model_predict m record with
        | Ok pc => Ok pc
        | Raise _ => predict_rule_based record
        end
    | None => predict_rule_based record
    end
  else predict_rule_based record.

Definition datetime_now : M Frame Z :=
  λ f, (Ok (clock (ticks f)),
        {| predictions := predictions f; approved_count := approved_count f;
           rejected_count := rejected_count f; ticks := Datatypes.S (ticks f) |}).

Definition incr_approved : M Frame unit :=
  modify (λ f, {| predictions := predictions f;
                  approved_count := approved_count f + 1;
                  rejected_count := rejected_count f; ticks := ticks f |}).
Definition incr_rejected : M Frame unit :=
  modify (λ f, {| predictions := predictions f;
                  approved_count := approved_count f;
                  rejected_count := rejected_count f + 1; ticks := ticks f |}).
Definition append_prediction (p : pyval) : M Frame unit :=
  modify (λ f, {| predictions := predictions f ++ [p];
                  approved_count := approved_count f;
                  rejected_count := rejected_count f; ticks := ticks f |}).

(** The dictionary appended for a scored record. *)
Definition prediction_entry (application_id person_age person_income
    loan_amnt loan_percent_income : pyval) (prediction : string)
    (confidence : float) (timestamp : string) : pyval :=
  VDict (list_to_map
    [("application_id", application_id); ("person_age", person_age);
     ("person_income", person_income); ("loan_amnt", loan_amnt);
     ("loan_percent_income", loan_percent_income);
     ("decision", VStr prediction); ("confidence", VFloat confidence);
     ("timestamp", VStr timestamp)]).

(** One turn of [for record in records], with its [try]/[except]: the
    handler formats [record.get('application_id', 'Unknown')] into its
    message and continues. *)
Definition score_record (use_model : bool) (record : pyval) : M Frame unit :=
  try_except
    (let* (prediction, confidence) :=
        lift (decide use_model record) in
     (if bool_decide (prediction = "APPROVED")
      then incr_approved else incr_rejected) ;;
     let* application_id := lift (py_get record "application_id" (VStr "N/A")) in
     let* person_age := lift (py_get record "person_age" (VInt 0)) in
     let* person_income := lift (py_get record "person_income" (VInt 0)) in
     let* loan_amnt := lift (py_get record "loan_amnt" (VInt 0)) in
     let* loan_percent_income :=
        lift (py_get record "loan_percent_income" (VInt 0)) in
     let* now := datetime_now in
     append_prediction
       (prediction_entry application_id person_age person_income loan_amnt
          loan_percent_income prediction confidence (isoformat now)))
    (λ e,
     let* _ := lift (py_get record "application_id" (VStr "Unknown")) in
     ret tt).

(** The [stats] dictionary. *)
Definition approval_rate (approved : Z) (n : nat) : result pyval :=
  match n with
  | O => Ok (VInt 0)
  | _ => rbind (int_truediv approved (Z.of_nat n)) (λ q,
         Ok (VFloat (py_round (q * 100)%float 2)))
  end.

Definition make_stats : M Frame pyval :=
  let* f := get in
  let* rate := lift (approval_rate (approved_count f) (length (predictions f))) in
  ret (VDict (list_to_map
    [("total_applications", VInt (Z.of_nat (length (predictions f))));
     ("approved_count", VInt (approved_count f));
     ("rejected_count", VInt (rejected_count f));
     ("approval_rate", rate)])).

(** The body of the outer [try]; [request_json] is the outcome of
    [request.get_json()]. *)
Definition predict_batch_body (request_json : result pyval) : M Frame response :=
  let* data := lift request_json in
  let* records := lift (py_get data "records" (VList [])) in
  if negb (truthy records) then
    ret (Response 400 (VDict {["error" := VStr "No records provided"]}))
  else
    let* _ := lift (py_len records) in
    let use_model := bool_decide (model ≠ None) in
    let* items := lift (py_iter records) in
    for_each items (score_record use_model) ;;
    let* stats := make_stats in
    let* f := get in
    ret (Response 200 (VDict (list_to_map
      [("predictions", VList (predictions f));
       ("stats", stats);
       ("method", VStr (if use_model then "ml_model" else "rule_based"))]))).

Definition initial_frame (t0 : nat) : Frame :=
  {| predictions := []; approved_count := 0; rejected_count := 0; ticks := t0 |}.

(** [predict_batch], started when [t0] clock readings have been taken. *)
Definition predict_batch (request_json : result pyval) (t0 : nat) : response :=
  match predict_batch_body request_json (initial_frame t0) with
  | (Ok r, _) => r
  | (Raise e, _) => Response 500 (VDict {["error" := VStr (str_exn e)]})
  end.

End predict_batch.

End Batch.

(** ** The normaliser: [process_loan_applications] *)

Module Normalizer.

(** [value not in [None, '', 'null']] is the negation of this. *)
Definition is_missing (value : pyval) : bool :=
  match value with
  | VNone => true
  | VStr s => bool_decide (s = "") || bool_decide (s = "null")
  | _ => false
  end.

(** [int(x)] for a [float]: truncation towards zero. *)
Definition int_of_float (x : float) : result Z :=
  match Prim2SF x with
  | S754_nan => Raise ValueError
  | S754_infinity _ => Raise OverflowError
  | S754_zero _ => Ok 0%Z
  | S754_finite s m e =>
      let a := if (0 <=? e)%Z then (Zpos m * 2 ^ e)%Z
               else (Zpos m / 2 ^ (- e))%Z in
      Ok (if s then (- a)%Z else a)
  end.

(** The local variables of [process_loan_applications] and the number of
    clock readings taken so far. *)
Record Frame : Type := {
  processed_records : list pyval;
  ticks : nat
}.

Section process.

Variable clock : nat → Z.
Variable isoformat : Z → string.
(** [float(s)] and [int(s)] on a [str]; [None] is their [ValueError]. *)
Variable float_of_string : string → option float.
Variable int_of_string : string → option Z.

(** [float(value)]. *)
Definition py_float (value : pyval) : result float :=
  match value with
  | VBool b => Ok (if b then 1%float else 0%float)
  | VInt n =>
      let x := float_of_Z n in
      if is_infinity x then Raise OverflowError else Ok x
  | VFloat x => Ok x
  | VStr s =>
      match float_of_string s with Some x => Ok x | None => Raise ValueError end
  | VNone | VList _ | VDict _ => Raise TypeError
  end.

(** [int(value)]. *)
Definition py_int (value : pyval) : result Z :=
  match value with
  | VBool b => Ok (if b then 1%Z else 0%Z)
  | VInt n => Ok n
  | VFloat x => int_of_float x
  | VStr s =>
      match int_of_string s with Some n => Ok n | None => Raise ValueError end
  | VNone | VList _ | VDict _ => Raise TypeError
  end.

Definition safe_float (value : pyval) : float :=
  match (if negb (is_missing value) then py_float value else Ok 0%float) with
  | Ok x => x
  | Raise _ => 0%float
  end.

Definition safe_int (value : pyval) : Z :=
  match (if negb (is_missing value) then py_int value else Ok 0%Z) with
  | Ok n => n
  | Raise _ => 0%Z
  end.

Definition datetime_now : M Frame Z :=
  λ f, (Ok (clock (ticks f)),
        {| processed_records := processed_records f;
           ticks := Datatypes.S (ticks f) |}).

(** The dictionary built for one application (the body of the [try]). *)
Definition normalize (app : pyval) : M Frame pyval :=
  let* person_age := lift (py_get app "person_age" (VInt 0)) in
  let* person_income := lift (py_get app "person_income" (VFloat 0)) in
  let* person_emp_exp := lift (py_get app "person_emp_exp" (VInt 0)) in
  let* loan_amnt := lift (py_get app "loan_amnt" (VFloat 0)) in
  let* loan_int_rate := lift (py_get app "loan_int_rate" (VFloat 0)) in
  let* loan_percent_income :=
    lift (py_get app "loan_percent_income" (VFloat 0)) in
  let* cb_person_cred_hist_length :=
    lift (py_get app "cb_person_cred_hist_length" (VInt 0)) in
  let* person_gender := lift (py_get app "person_gender" (VStr "Unknown")) in
  let* employment_type := lift (py_get app "employment_type" (VStr "Unknown")) in
  let* person_home_ownership :=
    lift (py_get app "person_home_ownership" (VStr "Unknown")) in
  let* loan_intent := lift (py_get app "loan_intent" (VStr "Unknown")) in
  let* account_type := lift (py_get app "account_type" (VStr "Unknown")) in
  let* person_education :=
    lift (py_get app "person_education" (VStr "High School")) in
  let* previous_loan_defaults_on_file :=
    lift (py_get app "previous_loan_defaults_on_file" (VStr "No")) in
  let* application_id := lift (py_get app "application_id" (VStr "")) in
  let* now := datetime_now in
  let* timestamp := lift (py_get app "timestamp" (VStr (isoformat now))) in
  ret (VDict (list_to_map
    [("person_age", VInt (safe_int person_age));
     ("person_income", VFloat (safe_float person_income));
     ("person_emp_exp", VInt (safe_int person_emp_exp));
     ("loan_amnt", VFloat (safe_float loan_amnt));
     ("loan_int_rate", VFloat (safe_float loan_int_rate));
     ("loan_percent_income", VFloat (safe_float loan_percent_income));
     ("cb_person_cred_hist_length", VInt (safe_int cb_person_cred_hist_length));
     ("person_gender", person_gender);
     ("employment_type", employment_type);
     ("person_home_ownership", person_home_ownership);
     ("loan_intent", loan_intent);
     ("account_type", account_type);
     ("person_education", person_education);
     ("previous_loan_defaults_on_file", previous_loan_defaults_on_file);
     ("application_id", application_id);
     ("timestamp", timestamp)])).

Definition append_record (r : pyval) : M Frame unit :=
  modify (λ f, {| processed_records := processed_records f ++ [r];
                  ticks := ticks f |}).

(** One turn of [for app in applications]. *)
Definition process_one (app : pyval) : M Frame unit :=
  try_except
    (let* processed_record := normalize app in
     append_record processed_record)
    (λ e, ret tt).

Definition process_loan_applications (applications : pyval) : M Frame pyval :=
  let* items := lift (py_iter applications) in
  for_each items process_one ;;
  let* f := get in
  let* now := datetime_now in
  ret (VDict (list_to_map
    [("processed_count", VInt (Z.of_nat (length (processed_records f))));
     ("records", VList (processed_records f));
     ("timestamp", VStr (isoformat now))])).

End process.

End Normalizer.

(** ** The result cache: [get_cached_data], [load_predictions_fast],
    [get_latest] *)

Module Cache.

(** The process-wide [CACHE] dictionary. *)
Record cache : Type := {
  data : pyval;
  timestamp : option Z;
  ttl : Z
}.

(** [CACHE] as the module creates it. *)
Definition initial_cache : cache :=
  {| data := VNone; timestamp := None; ttl := 300 |}.

(** The state the read path works on: the cache, the objects of the
    bucket, the keys requested from the bucket so far (a record of the
    external accesses), and the number of clock readings taken. *)
Record World : Type := {
  CACHE : cache;
  bucket : gmap string (list Byte.byte);
  requested : list string;
  ticks : nat
}.

(** [obj['Body'].read(1024 * 1024)] reads at most this many bytes. *)
Definition read_limit : nat := 1024 * 1024.

Definition microseconds_per_second : Z := 1000000.
Definition microseconds_per_day : Z := 86400000000.

(** ['predictions' in data]. *)
Definition py_contains (o : pyval) (k : string) : result bool :=
  match o with
  | VDict m => Ok (bool_decide (is_Some (m !! k)))
  | VList l => Ok (existsb (λ v, py_eq_str v k) l)
  | VStr s => Ok (bool_decide (is_Some (String.index 0 k s)))
  | _ => Raise TypeError
  end.

(** [[p for p in items if p['decision'] == want]]. *)
Fixpoint select_decision (want : string) (items : list pyval)
  : result (list pyval) :=
  match items with
  | [] => Ok []
  | p :: rest =>
      rbind (py_getitem p "decision") (λ d,
      rbind (select_decision want rest) (λ sel,
      Ok (if py_eq_str d want then p :: sel else sel)))
  end.

Section read_path.

(** [clock n] is the [n]-th reading of [datetime.now()] in microseconds;
    [strftime] renders a time as [%Y%m%d] and [isoformat] as ISO-8601.
    [decode] is [bytes.decode('utf-8')] and [json_loads] is [json.loads];
    [None] is their exception. *)
Variable clock : nat → Z.
Variable strftime : Z → string.
Variable isoformat : Z → string.
Variable decode : list Byte.byte → option string.
Variable json_loads : string → option pyval.

Definition datetime_now : M World Z :=
  λ w, (Ok (clock (ticks w)),
        {| CACHE := CACHE w; bucket := bucket w; requested := requested w;
           ticks := Datatypes.S (ticks w) |}).

(** [s3.get_object(Bucket=BUCKET_NAME, Key=key)['Body']]: the request is
    made, and raises when there is no such object. *)
Definition s3_get_object (key : string) : M World (list Byte.byte) :=
  λ w, (match bucket w !! key with
        | Some raw => Ok raw
        | None => Raise ExternalError
        end,
        {| CACHE := CACHE w; bucket := bucket w;
           requested := requested w ++ [key]; ticks := ticks w |}).

(** [CACHE['data'] = result; CACHE['timestamp'] = now]. *)
Definition set_cache (result : pyval) (now : Z) : M World unit :=
  modify (λ w, {| CACHE := {| data := result; timestamp := Some now;
                               ttl := ttl (CACHE w) |};
                  bucket := bucket w; requested := requested w;
                  ticks := ticks w |}).

Definition get_cached_data : M World pyval :=
  let* w := get in
  match data (CACHE w), timestamp (CACHE w) with
  | VNone, _ | _, None => ret VNone
  | cached, Some fetched_at =>
      let* now := datetime_now in
      if (now - fetched_at <? ttl (CACHE w) * microseconds_per_second)%Z
      then ret cached
      else ret VNone
  end.

Definition partition_key (check_date : string) : string :=
  "predictions/" +:+ check_date +:+ "/predictions_" +:+ check_date +:+ ".json".

(** The capped bundle built from a document with predictions. *)
Definition capped_bundle (approved rejected : list pyval)
    (total_applications approved_count rejected_count approval_rate : pyval)
    (timestamp date : string) : pyval :=
  VDict (list_to_map
    [("predictions", VList (take 20 approved ++ take 20 rejected));
     ("total_applications", total_applications);
     ("approved_count", approved_count);
     ("rejected_count", rejected_count);
     ("approval_rate", approval_rate);
     ("timestamp", VStr timestamp);
     ("date", VStr date)]).

(** The body of the [try] of the loop, for one value of [days_ago]. *)
Definition attempt (days_ago : Z) : M World pyval :=
  let* now := datetime_now in
  let check_date := strftime (now - days_ago * microseconds_per_day)%Z in
  let key := partition_key check_date in
  let* raw := s3_get_object key in
  let* content :=
    lift (match decode (take read_limit raw) with
          | Some c => Ok c | None => Raise ValueError end) in
  let* data :=
    lift (match json_loads content with
          | Some v => Ok v | None => Raise ValueError end) in
  let* has_predictions := lift (py_contains data "predictions") in
  let* result :=
    if has_predictions then
      let* items := lift (rbind (py_getitem data "predictions") py_iter) in
      let* approved := lift (select_decision "APPROVED" items) in
      let* rejected := lift (select_decision "REJECTED" items) in
      let* stats := lift (py_get data "stats" (VDict ∅)) in
      let* total_applications :=
        lift (py_get stats "total_applications" (VInt 0)) in
      let* approved_count := lift (py_get stats "approved_count" (VInt 0)) in
      let* rejected_count := lift (py_get stats "rejected_count" (VInt 0)) in
      let* approval_rate := lift (py_get stats "approval_rate" (VInt 0)) in
      let* now := datetime_now in
      ret (capped_bundle approved rejected total_applications approved_count
             rejected_count approval_rate (isoformat now) check_date)
    else ret data in
  let* now := datetime_now in
  set_cache result now ;;
  let* loaded := lift (py_get result "predictions" (VList [])) in
  let* _ := lift (py_len loaded) in
  ret result.

(** [for days_ago in ...: try: ... return result except: continue]:
    [None] when the loop ends without returning. *)
Fixpoint try_days (days : list Z) : M World (option pyval) :=
  match days with
  | [] => ret None
  | days_ago :: rest =>
      try_except (let* result := attempt days_ago in ret (Some result))
                 (λ e, try_days rest)
  end.

Definition empty_bundle (timestamp : string) : pyval :=
  VDict (list_to_map
    [("predictions", VList []);
     ("total_applications", VInt 0);
     ("approved_count", VInt 0);
     ("rejected_count", VInt 0);
     ("approval_rate", VInt 0);
     ("timestamp", VStr timestamp)]).

Definition load_predictions_fast : M World pyval :=
  let* cached := get_cached_data in
  if truthy cached then ret cached
  else
    let* found := try_days [0%Z; 1%Z] in
    match found with
    | Some result => ret result
    | None =>
        let* now := datetime_now in
        ret (empty_bundle (isoformat now))
    end.

Variable str_exn : exn → string.

Definition get_latest : M World response :=
  try_except
    (let* data := load_predictions_fast in ret (Response 200 data))
    (λ e, ret (Response 500 (VDict {["error" := VStr (str_exn e)]}))).

(** The [cache_valid] entry of [health]. *)
Definition cache_valid : M World bool :=
  let* cached := get_cached_data in
  ret (match cached with VNone => false | _ => true end).

End read_path.

End Cache.

(** ** The other endpoints: [get_summary], [health] *)

Module Serving.
Import Batch Cache.

Section endpoints.

Variable clock : nat → Z.
Variable strftime : Z → string.
Variable isoformat : Z → string.
Variable decode : list Byte.byte → option string.
Variable json_loads : string → option pyval.
Variable str_exn : exn → string.
(** The global [model]. *)
Variable model : option Classifier.

Definition get_summary : M World response :=
  try_except
    (let* data :=
       load_predictions_fast clock strftime isoformat decode json_loads in
     let* total_applications :=
       lift (py_get data "total_applications" (VInt 0)) in
     let* approved_count := lift (py_get data "approved_count" (VInt 0)) in
     let* rejected_count := lift (py_get data "rejected_count" (VInt 0)) in
     let* approval_rate := lift (py_get data "approval_rate" (VInt 0)) in
     let* now := datetime_now clock in
     let* timestamp := lift (py_get data "timestamp" (VStr (isoformat now))) in
     ret (Response 200 (VDict (list_to_map
       [("total_applications", total_applications);
        ("approved_count", approved_count);
        ("rejected_count", rejected_count);
        ("approval_rate", approval_rate);
        ("timestamp", timestamp)]))))
    (λ e, ret (Response 500 (VDict {["error" := VStr (str_exn e)]}))).

Definition health : M World response :=
  let* cached := get_cached_data clock in
  let* now := datetime_now clock in
  ret (Response 200 (VDict (list_to_map
    [("status", VStr "healthy");
     ("model_loaded", VBool (bool_decide (model ≠ None)));
     ("cache_valid", VBool (match cached with VNone => false | _ => true end));
     ("timestamp", VStr (isoformat now))]))).

End endpoints.

End Serving.

(** ** The objects the stages hand over *)

Module Pipeline.
Import Arith Batch.

(** [lambda-loan-processor.py]: the key the processor writes its summary
    under, for the day [today] ([%Y%m%d]). *)
Definition processor_output_key (today : string) : string :=
  "processed/" +:+ today +:+ "/summary_" +:+ today +:+ ".json".

(** [lambda-loan-predictor.py]: the key the predictor reads the processed
    applications from, and the key it writes its predictions under. *)
Definition predictor_input_key (today : string) : string :=
  "processed/" +:+ today +:+ "/applications_" +:+ today +:+ ".json".
Definition predictor_output_key (today : string) : string :=
  "predictions/" +:+ today +:+ "/predictions_" +:+ today +:+ ".json".

(** The local variables of the predictor's loop, and the clock readings
    taken. *)
Record Frame : Type := {
  results : list pyval;
  approved_count : Z;
  rejected_count : Z;
  ticks : nat
}.

Section predictor.

Variable clock : nat → Z.
Variable isoformat : Z → string.
(** [float(s)] on a [str]; [None] is its [ValueError]. *)
Variable float_of_string : string → option float.

Definition py_float : pyval → result float :=
  Normalizer.py_float float_of_string.

Definition datetime_now : M Frame Z :=
  λ f, (Ok (clock (ticks f)),
        {| results := results f; approved_count := approved_count f;
           rejected_count := rejected_count f;
           ticks := Datatypes.S (ticks f) |}).

(** One turn of [for i, (pred, proba) in enumerate(zip(predictions,
    probabilities))]; [records[i]] is looked up in [records]. *)
Definition predict_one (records : list pyval) (i : nat)
    (pred : Z) (proba : list float) : M Frame unit :=
  let decision := if (pred =? 1)%Z then "APPROVED" else "REJECTED" in
  let* confidence := lift (array_index proba pred) in
  (if (pred =? 1)%Z
   then modify (λ f, {| results := results f;
                        approved_count := approved_count f + 1;
                        rejected_count := rejected_count f;
                        ticks := ticks f |})
   else modify (λ f, {| results := results f;
                        approved_count := approved_count f;
                        rejected_count := rejected_count f + 1;
                        ticks := ticks f |})) ;;
  let* record :=
    lift (match records !! i with
          | Some r => Ok r | None => Raise IndexError end) in
  let* application_id :=
    lift (py_get record "application_id" (VStr ("app_" +:+ pretty i))) in
  let* loan_amnt := lift (py_get record "loan_amnt" (VInt 0)) in
  let* loan_amount := lift (py_float loan_amnt) in
  let* income := lift (py_get record "person_income" (VInt 0)) in
  let* person_income := lift (py_float income) in
  let* now := datetime_now in
  modify (λ f, {| results :=
                    results f ++
                    [VDict (list_to_map
                       [("application_id", application_id);
                        ("decision", VStr decision);
                        ("confidence", VFloat (py_round confidence 4));
                        ("loan_amount", VFloat loan_amount);
                        ("person_income", VFloat person_income);
                        ("timestamp", VStr (isoformat now))])];
                  approved_count := approved_count f;
                  rejected_count := rejected_count f;
                  ticks := ticks f |}).

Fixpoint predict_loop (records : list pyval) (i : nat)
    (outputs : list (Z * list float)) : M Frame unit :=
  match outputs with
  | [] => ret tt
  | (pred, proba) :: rest =>
      predict_one records i pred proba ;;
      predict_loop records (Datatypes.S i) rest
  end.

(** The document the predictor saves: [stats], [predictions] and a
    [timestamp]. *)
Definition predictor_document : M Frame pyval :=
  let* f := get in
  let* rate := lift (approval_rate (approved_count f) (length (results f))) in
  let* now := datetime_now in
  ret (VDict (list_to_map
    [("stats", VDict (list_to_map
        [("total_applications", VInt (Z.of_nat (length (results f))));
         ("approved", VInt (approved_count f));
         ("rejected", VInt (rejected_count f));
         ("approval_rate", rate)]));
     ("predictions", VList (results f));
     ("timestamp", VStr (isoformat now))])).

(** From the model's outputs to the saved document: the part of
    [lambda_handler] between [pipeline.predict_proba] and [s3.put_object].
    An exception here ends the handler with its 500 answer and nothing is
    saved. *)
Definition predictor_bundle (records : list pyval)
    (predictions : list Z) (probabilities : list (list float)) (t0 : nat)
  : result pyval :=
  fst ((predict_loop records 0 (zip predictions probabilities) ;;
        predictor_document)
         {| results := []; approved_count := 0; rejected_count := 0;
            ticks := t0 |}).

End predictor.

End Pipeline.

(** ** The processor's choice of its input file *)

Module Processor.

(** An entry of [response['Contents']] of [list_objects_v2], as far as
    [lambda_handler] reads it. *)
Record s3_object : Type := {
  Key : string;
  LastModified : Z
}.

(** [s.endswith(suffix)]. *)
Definition endswith (s suffix : string) : bool :=
  let n := String.length s in
  let k := String.length suffix in
  (k <=? n)%nat && String.eqb (String.substring (n - k) k s) suffix.

(** [sorted(files, key=lambda x: x['LastModified'], reverse=True)]: the
    sort is stable, also in reverse, so among objects of equal date the
    listing order is kept. *)
Fixpoint insert_sorted (x : s3_object) (l : list s3_object) : list s3_object :=
  match l with
  | [] => [x]
  | y :: rest =>
      if (LastModified y <=? LastModified x)%Z then x :: l
      else y :: insert_sorted x rest
  end.
Definition sorted_latest_first (files : list s3_object) : list s3_object :=
  foldr insert_sorted [] files.

(** The file [lambda_handler] processes: [None] when the listing has no
    [Contents] (the handler answers that there is no data); with
    [Contents], the most recent object whose key ends in [.json], and an
    [IndexError] (which the handler re-raises) when there is none. *)
Definition latest_file (contents : option (list s3_object))
  : result (option s3_object) :=
  match contents with
  | None => Ok None
  | Some objects =>
      let files := List.filter (λ obj, endswith (Key obj) ".json") objects in
      let files_sorted := sorted_latest_first files in
      match files_sorted with
      | latest :: _ => Ok (Some latest)
      | [] => Raise IndexError
      end
  end.

End Processor.

(** ** Properties of the rule-based decision *)

Module RulesFacts.
Import Rules Schema.

Lemma is_int_inv v : is_int v = true → ∃ n, v = Some (VInt n).
Proof. destruct v as [[]|]; try discriminate; eauto. Qed.
Lemma is_float_inv v : is_float v = true → ∃ x, v = Some (VFloat x).
Proof. destruct v as [[]|]; try discriminate; eauto. Qed.
Lemma is_str_inv v : is_str v = true → ∃ s, v = Some (VStr s).
Proof. destruct v as [[]|]; try discriminate; eauto. Qed.

Example rule2_example :
  predict_rule_based
    (VDict (<["person_income" := VInt 60000]>
           (<["loan_percent_income" := VFloat 0.15]>
           (<["previous_loan_defaults_on_file" := VStr "No"]> ∅))))
  = Ok ("APPROVED", 0.80%float).
Proof. vm_compute. reflexivity. Qed.

Example rule1_example :
  predict_rule_based (VDict (<["loan_percent_income" := VFloat 0.5]> ∅))
  = Ok ("REJECTED", 0.75%float).
Proof. vm_compute. reflexivity. Qed.

Example rule_type_error :
  predict_rule_based (VDict (<["loan_percent_income" := VStr "abc"]> ∅))
  = Raise TypeError.
Proof. vm_compute. reflexivity. Qed.

Lemma rule_cascade_range defaults lpi inc amt :
  ((rule_cascade defaults lpi inc amt).1 = "APPROVED"
   ∨ (rule_cascade defaults lpi inc amt).1 = "REJECTED")
  ∧ ((0 <=? (rule_cascade defaults lpi inc amt).2)%float
     && ((rule_cascade defaults lpi inc amt).2 <=? 1)%float) = true.
Proof.
  unfold rule_cascade.
  destruct (rule1 _ _); [|destruct (rule2 _ _); [|destruct (rule3 _ _)]];
    (split; [auto | reflexivity]).
Qed.

(** On the four typed fields the code computes the rule table. *)
Lemma predict_rule_based_typed (r : gmap string pyval) defaults lpi inc amt :
  r !! "previous_loan_defaults_on_file" = Some (VStr defaults) →
  r !! "loan_percent_income" = Some (VFloat lpi) →
  r !! "person_income" = Some (VFloat inc) →
  r !! "loan_amnt" = Some (VFloat amt) →
  predict_rule_based (VDict r) = Ok (rule_cascade defaults lpi inc amt).
Proof.
  intros Hd Hl Hi Ha.
  unfold predict_rule_based, py_get, rule_cascade, rule1, rule2, rule3.
  rewrite Hd, Hl, Hi, Ha. cbn -[num_ltb].
  unfold py_or, py_and, py_gt, py_lt. cbn -[num_ltb].
  destruct (bool_decide (defaults = "Yes")); cbn -[num_ltb]; [reflexivity|].
  destruct (num_ltb (NFloat 0.4) (NFloat lpi)); cbn -[num_ltb]; [reflexivity|].
  destruct (num_ltb (NFloat lpi) (NFloat 0.2)); cbn -[num_ltb].
  - destruct (num_ltb (NInt 50000) (NFloat inc)); cbn -[num_ltb]; [reflexivity|].
    destruct (num_ltb (NInt 35000) (NFloat amt)); cbn -[num_ltb]; [|reflexivity].
    destruct (num_ltb (NFloat inc) (NInt 40000)); reflexivity.
  - destruct (num_ltb (NInt 35000) (NFloat amt)); cbn -[num_ltb]; [|reflexivity].
    destruct (num_ltb (NFloat inc) (NInt 40000)); reflexivity.
Qed.

(** C1: on every canonical record the rule-based decision returns (it
    raises nothing and reads nothing but its argument) the pair the rule
    table gives, first match wins: a record in rule 1 is rejected with
    confidence 0.75 whatever rules 2 and 3 say, the decision is APPROVED
    or REJECTED and the confidence lies in [0,1]. *)
Theorem predict_rule_based_canonical (r : gmap string pyval) :
  canonical r = true →
  ∃ (defaults : string) (lpi inc amt : float),
    r !! "previous_loan_defaults_on_file" = Some (VStr defaults)
    ∧ r !! "loan_percent_income" = Some (VFloat lpi)
    ∧ r !! "person_income" = Some (VFloat inc)
    ∧ r !! "loan_amnt" = Some (VFloat amt)
    ∧ predict_rule_based (VDict r) = Ok (rule_cascade defaults lpi inc amt)
    ∧ (rule1 defaults lpi = true →
       predict_rule_based (VDict r) = Ok ("REJECTED", 0.75%float))
    ∧ (∀ d c, predict_rule_based (VDict r) = Ok (d, c) →
         (d = "APPROVED" ∨ d = "REJECTED")
         ∧ ((0 <=? c)%float && (c <=? 1)%float) = true).
Proof.
  intros Hc. unfold canonical in Hc. simpl in Hc.
  repeat match goal with
         | H : _ && _ = true |- _ => apply andb_prop in H as [? ?]
         end.
  repeat match goal with
         | H : is_float _ = true |- _ => apply is_float_inv in H as [? H]
         | H : is_str _ = true |- _ => apply is_str_inv in H as [? H]
         | H : is_int _ = true |- _ => apply is_int_inv in H as [? H]
         end.
  match goal with
  | Hd : r !! "previous_loan_defaults_on_file" = Some (VStr ?d),
    Hl : r !! "loan_percent_income" = Some (VFloat ?l),
    Hi : r !! "person_income" = Some (VFloat ?i),
    Ha : r !! "loan_amnt" = Some (VFloat ?a) |- _ =>
      exists d, l, i, a;
      pose proof (predict_rule_based_typed r d l i a Hd Hl Hi Ha) as Heq;
      split; [exact Hd|split; [exact Hl|split; [exact Hi|split; [exact Ha|]]]]
  end.
  split; [exact Heq|]. split.
  - intros Hr1. rewrite Heq. unfold rule_cascade. rewrite Hr1. reflexivity.
  - intros d c Hdc. rewrite Heq in Hdc. injection Hdc as Hdc.
    match type of Hdc with
    | rule_cascade ?d0 ?l0 ?i0 ?a0 = _ =>
        pose proof (rule_cascade_range d0 l0 i0 a0) as Hrange
    end.
    rewrite Hdc in Hrange. exact Hrange.
Qed.

Definition sample_canonical : gmap string pyval :=
  list_to_map
    [("person_age", VInt 30); ("person_income", VFloat 60000);
     ("person_emp_exp", VInt 5); ("loan_amnt", VFloat 9000);
     ("loan_int_rate", VFloat 7.5); ("loan_percent_income", VFloat 0.15);
     ("cb_person_cred_hist_length", VInt 4); ("person_gender", VStr "female");
     ("employment_type", VStr "Salaried"); ("person_home_ownership", VStr "RENT");
     ("loan_intent", VStr "EDUCATION"); ("account_type", VStr "Savings");
     ("person_education", VStr "Master");
     ("previous_loan_defaults_on_file", VStr "Yes");
     ("application_id", VStr "A-1"); ("timestamp", VStr "2024-01-01T00:00:00")].

Lemma predict_rule_based_canonical_witness :
  canonical sample_canonical = true
  ∧ predict_rule_based (VDict sample_canonical) = Ok ("REJECTED", 0.75%float).
Proof.
  split; [vm_compute; reflexivity|].
  destruct (predict_rule_based_canonical sample_canonical)
    as (d & l & i & a & Hd & _ & _ & _ & _ & H1 & _); [vm_compute; reflexivity|].
  apply H1. vm_compute in Hd. injection Hd as <-. vm_compute. reflexivity.
Defined.

End RulesFacts.

(** ** Python arithmetic on concrete numbers *)

Module ArithFacts.
Import Arith.

Example round_third : py_round (33.333333333333336)%float 2 = 33.33%float.
Proof. vm_compute. reflexivity. Qed.
Example round_two_thirds : py_round (66.66666666666667)%float 2 = 66.67%float.
Proof. vm_compute. reflexivity. Qed.
Example round_2_675 : py_round (2.675)%float 2 = 2.67%float.
Proof. vm_compute. reflexivity. Qed.
Example round_tie_even : py_round (0.125)%float 2 = 0.12%float.
Proof. vm_compute. reflexivity. Qed.
Example round_tie_even_up : py_round (0.375)%float 2 = 0.38%float.
Proof. vm_compute. reflexivity. Qed.
Example truediv_1_3 : int_truediv 1 3 = Ok (0.3333333333333333)%float.
Proof. vm_compute. reflexivity. Qed.
Example truediv_2_3 : int_truediv 2 3 = Ok (0.6666666666666666)%float.
Proof. vm_compute. reflexivity. Qed.

End ArithFacts.

(** ** Properties of batch scoring *)

Module BatchFacts.
Import Rules Arith Batch.

Section facts.

Variable clock : nat → Z.
Variable isoformat : Z → string.
Variable str_exn : exn → string.
Variable model : option Classifier.

#[local] Abbreviation decide := (Batch.decide model).
#[local] Abbreviation score_record := (Batch.score_record clock isoformat model).
#[local] Abbreviation predict_batch :=
  (Batch.predict_batch clock isoformat str_exn model).
#[local] Abbreviation predict_batch_body :=
  (Batch.predict_batch_body clock isoformat model).

(** The entry appended for the mapping [m]. *)
Definition entry_of (m : gmap string pyval) (p : string) (c : float)
    (ts : string) : pyval :=
  prediction_entry
    (default (VStr "N/A") (m !! "application_id"))
    (default (VInt 0) (m !! "person_age"))
    (default (VInt 0) (m !! "person_income"))
    (default (VInt 0) (m !! "loan_amnt"))
    (default (VInt 0) (m !! "loan_percent_income")) p c ts.

(** The frame after a record was scored with [(p, c)]. *)
Definition scored (f : Frame) (m : gmap string pyval) (p : string)
    (c : float) : Frame :=
  {| predictions :=
       predictions f ++ [entry_of m p c (isoformat (clock (ticks f)))];
     approved_count :=
       if bool_decide (p = "APPROVED") then approved_count f + 1
       else approved_count f;
     rejected_count :=
       if bool_decide (p = "APPROVED") then rejected_count f
       else rejected_count f + 1;
     ticks := Datatypes.S (ticks f) |}.

Definition step (um : bool) (f : Frame) (m : gmap string pyval) : Frame :=
  match decide um (VDict m) with
  | Ok (p, c) => scored f m p c
  | Raise _ => f
  end.

(** A turn of the loop on a mapping never raises: the record is scored, or
    it is skipped and the frame is as before. *)
Lemma score_record_dict um (m : gmap string pyval) f :
  score_record um (VDict m) f = (Ok tt, step um f m).
Proof.
  unfold Batch.score_record, step, try_except, bind, lift.
  destruct (decide um (VDict m)) as [[p c]|e]; [|reflexivity].
  unfold scored, entry_of. cbn.
  destruct (bool_decide (p = "APPROVED")); reflexivity.
Qed.

(** A turn on a value that is not a mapping raises out of the handler. *)
Lemma score_record_not_dict um v f :
  (∀ m, v ≠ VDict m) →
  score_record um v f = (Raise AttributeError, f).
Proof.
  intros Hv. unfold Batch.score_record, try_except, bind, lift.
  assert (Hd : ∃ e, decide um v = Raise e).
  { unfold Batch.decide, model_predict, features, predict_rule_based.
    destruct v; try (by destruct um, model; eauto).
    by destruct (Hv m). }
  destruct Hd as [e ->].
  destruct v; try reflexivity. by destruct (Hv m).
Qed.

Definition run (um : bool) (records : list (gmap string pyval)) (f : Frame)
  : Frame := foldl (step um) f records.

Lemma for_each_dicts um (records : list (gmap string pyval)) f :
  for_each (VDict <$> records) (score_record um) f
  = (Ok tt, run um records f).
Proof.
  revert f. induction records as [|m rest IH]; intros f; [reflexivity|].
  cbn [fmap list_fmap for_each]. unfold bind at 1.
  rewrite score_record_dict. apply IH.
Qed.

(** The records that are scored, in input order. *)
Definition survivors (um : bool) (records : list (gmap string pyval))
  : list (gmap string pyval) :=
  filter (λ m, is_ok (decide um (VDict m)) = true) records.

(** An output entry belongs to a record: it echoes the record's fields and
    carries the record's own decision. *)
Definition entry_for (um : bool) (out : pyval) (m : gmap string pyval) : Prop :=
  ∃ p c ts, decide um (VDict m) = Ok (p, c) ∧ out = entry_of m p c ts.

Definition is_approved_entry (out : pyval) : bool :=
  match py_getitem out "decision" with
  | Ok v => py_eq_str v "APPROVED"
  | Raise _ => false
  end.

Definition count_approved (outs : list pyval) : Z :=
  Z.of_nat (length (List.filter is_approved_entry outs)).

Lemma is_approved_entry_of m p c ts :
  is_approved_entry (entry_of m p c ts) = bool_decide (p = "APPROVED").
Proof. reflexivity. Qed.

(** The loop invariant. *)
Lemma run_spec um records f :
  ∃ outs,
    predictions (run um records f) = predictions f ++ outs
    ∧ Forall2 (entry_for um) outs (survivors um records)
    ∧ approved_count (run um records f)
      = (approved_count f + count_approved outs)%Z
    ∧ rejected_count (run um records f)
      = (rejected_count f + Z.of_nat (length outs) - count_approved outs)%Z.
Proof.
  revert f. induction records as [|m rest IH]; intros f.
  - exists []. cbn. rewrite app_nil_r. unfold count_approved. cbn.
    repeat split; [constructor | lia | lia].
  - unfold run. cbn [foldl]. fold (run um rest (step um f m)).
    destruct (IH (step um f m)) as (outs & Hp & Hf & Ha & Hr).
    unfold survivors. rewrite filter_cons. unfold step in *.
    destruct (decide um (VDict m)) as [[p c]|e] eqn:Hd; cbn [is_ok].
    + rewrite decide_True by done.
      exists (entry_of m p c (isoformat (clock (ticks f))) :: outs).
      rewrite Hp, Ha, Hr. cbn [scored predictions approved_count rejected_count].
      rewrite <- app_assoc. split; [reflexivity|]. split.
      { constructor; [|exact Hf]. exists p, c, (isoformat (clock (ticks f))).
        split; [exact Hd | reflexivity]. }
      unfold count_approved. cbn [List.filter length].
      rewrite is_approved_entry_of.
      destruct (bool_decide (p = "APPROVED")); cbn [length]; lia.
    + rewrite decide_False by done.
      exists outs. auto.
Qed.

(** The approval rate never raises: the division is guarded. *)
Definition rate_value (a : Z) (n : nat) : pyval :=
  match n with
  | O => VInt 0
  | _ => VFloat (py_round
           (SF2Prim (SFdiv prec emax (SF_of_Z a) (SF_of_Z (Z.of_nat n))) * 100)%float 2)
  end.

Lemma approval_rate_total a n : approval_rate a n = Ok (rate_value a n).
Proof.
  destruct n as [|n]; [reflexivity|].
  unfold approval_rate, int_truediv.
  destruct (Z.of_nat (Datatypes.S n) =? 0)%Z eqn:E; [|reflexivity].
  apply Z.eqb_eq in E. lia.
Qed.

Definition stats_of (f : Frame) : pyval :=
  VDict (list_to_map
    [("total_applications", VInt (Z.of_nat (length (predictions f))));
     ("approved_count", VInt (approved_count f));
     ("rejected_count", VInt (rejected_count f));
     ("approval_rate", rate_value (approved_count f) (length (predictions f)))]).

Definition method_tag : string :=
  match model with Some _ => "ml_model" | None => "rule_based" end.

Definition bundle_of (f : Frame) : pyval :=
  VDict (list_to_map
    [("predictions", VList (predictions f)); ("stats", stats_of f);
     ("method", VStr method_tag)]).

Definition use_model : bool := bool_decide (model ≠ None).

Lemma use_model_tag :
  (if use_model then "ml_model" else "rule_based") = method_tag.
Proof. unfold use_model, method_tag. by destruct model. Qed.

(** A request with a non-empty list of mappings is answered with the
    bundle of the frame the loop reaches. *)
Lemma predict_batch_dicts (d : gmap string pyval)
    (records : list (gmap string pyval)) t0 :
  d !! "records" = Some (VList (VDict <$> records)) →
  records ≠ [] →
  predict_batch (Ok (VDict d)) t0
  = Response 200 (bundle_of (run use_model records (initial_frame t0))).
Proof.
  intros Hd Hne.
  unfold Batch.predict_batch, Batch.predict_batch_body, bind, lift, py_get.
  rewrite Hd. cbn [default from_option id].
  destruct records as [|r rs]; [done|].
  change (VDict <$> r :: rs) with (VDict r :: (VDict <$> rs)).
  cbn [truthy negb py_len py_iter]. fold (use_model).
  change (VDict r :: (VDict <$> rs)) with (VDict <$> r :: rs).
  rewrite for_each_dicts.
  unfold make_stats, bind, get, lift, ret.
  rewrite approval_rate_total, use_model_tag. reflexivity.
Qed.

(** A request without records is refused. *)
Lemma predict_batch_no_records (d : gmap string pyval) t0 :
  d !! "records" = None ∨ d !! "records" = Some VNone
  ∨ d !! "records" = Some (VList []) →
  predict_batch (Ok (VDict d)) t0
  = Response 400 (VDict {["error" := VStr "No records provided"]}).
Proof.
  unfold Batch.predict_batch, Batch.predict_batch_body, bind, lift, py_get.
  intros [-> | [-> | ->]]; reflexivity.
Qed.

Lemma bundle_predictions f :
  py_getitem (bundle_of f) "predictions" = Ok (VList (predictions f)).
Proof. reflexivity. Qed.
Lemma bundle_stats f : py_getitem (bundle_of f) "stats" = Ok (stats_of f).
Proof. reflexivity. Qed.

Lemma run_initial records t0 :
  ∃ outs,
    predictions (run use_model records (initial_frame t0)) = outs
    ∧ Forall2 (entry_for use_model) outs (survivors use_model records)
    ∧ approved_count (run use_model records (initial_frame t0))
      = count_approved outs
    ∧ rejected_count (run use_model records (initial_frame t0))
      = (Z.of_nat (length outs) - count_approved outs)%Z.
Proof.
  destruct (run_spec use_model records (initial_frame t0))
    as (outs & Hp & Hf & Ha & Hr).
  exists outs. cbn in Hp, Ha, Hr. rewrite Hp, Ha, Hr.
  split; [reflexivity|]. split; [exact Hf|]. split; lia.
Qed.

(** C5: on a request whose [records] are absent, null or a list of
    mappings, the answer is the client error 400 exactly when the records
    are absent or the list is empty; every non-empty list is answered 200
    with a bundle, whatever the decisions in it. *)
Theorem predict_batch_empty_input (d : gmap string pyval)
    (records : option (list (gmap string pyval))) (t0 : nat) :
  (d !! "records" = (λ l, VList (VDict <$> l)) <$> records
   ∨ (records = None ∧ d !! "records" = Some VNone)) →
  let resp := predict_batch (Ok (VDict d)) t0 in
  (status resp = 400%Z ↔ records = None ∨ records = Some [])
  ∧ (status resp = 400%Z →
     body resp = VDict {["error" := VStr "No records provided"]})
  ∧ (status resp ≠ 400%Z →
     status resp = 200%Z
     ∧ ∃ outs stats,
         body resp = VDict (list_to_map
           [("predictions", VList outs); ("stats", stats);
            ("method", VStr method_tag)])).
Proof.
  intros Hd resp. subst resp.
  assert (Hcase : (records = None ∨ records = Some [])
                  ∧ predict_batch (Ok (VDict d)) t0
                    = Response 400 (VDict {["error" := VStr "No records provided"]})
                  ∨ ∃ r rs, records = Some (r :: rs)
                    ∧ predict_batch (Ok (VDict d)) t0
                      = Response 200
                          (bundle_of (run use_model (r :: rs) (initial_frame t0)))).
  { destruct Hd as [Hd | [-> Hd]].
    - destruct records as [[|r rs]|]; cbn in Hd.
      + left. split; [by right|]. apply predict_batch_no_records. auto.
      + right. exists r, rs. split; [done|]. by apply predict_batch_dicts.
      + left. split; [by left|]. apply predict_batch_no_records. auto.
    - left. split; [by left|]. apply predict_batch_no_records. auto. }
  destruct Hcase as [[Hr ->] | (r & rs & -> & ->)]; cbn [status body].
  - repeat split; try done.
  - split; [|split].
    + split; [discriminate | intros [?|?]; discriminate].
    + discriminate.
    + intros _. split; [reflexivity|]. eexists _, _. reflexivity.
Qed.

(** X22: on a non-empty list of mappings, a record whose processing raises
    is skipped and the loop goes on: the answer is 200, the predictions are
    exactly the entries of the records that were scored, in input order,
    so they are no more than the records. *)
Theorem predict_batch_skips_bad_records (d : gmap string pyval)
    (records : list (gmap string pyval)) (t0 : nat) :
  d !! "records" = Some (VList (VDict <$> records)) →
  records ≠ [] →
  let resp := predict_batch (Ok (VDict d)) t0 in
  status resp = 200%Z
  ∧ ∃ outs,
      py_getitem (body resp) "predictions" = Ok (VList outs)
      ∧ length outs ≤ length records
      ∧ survivors use_model records `sublist_of` records
      ∧ (∀ m, m ∈ survivors use_model records
              ↔ m ∈ records ∧ is_ok (decide use_model (VDict m)) = true)
      ∧ Forall2 (entry_for use_model) outs (survivors use_model records).
Proof.
  intros Hd Hne resp. subst resp.
  rewrite (predict_batch_dicts d records t0 Hd Hne). cbn [status body].
  split; [reflexivity|].
  destruct (run_initial records t0) as (outs & Hp & Hf & _ & _).
  exists outs. rewrite bundle_predictions, Hp.
  split; [reflexivity|]. split; [|split; [|split]].
  - rewrite (Forall2_length _ _ _ Hf). apply length_filter.
  - apply sublist_filter.
  - intros m. unfold survivors. rewrite list_elem_of_filter. tauto.
  - exact Hf.
Qed.




(** C9: in the bundle of a non-empty list of mappings, total_applications
    is the number of predictions, approved_count counts the APPROVED
    entries, approved_count + rejected_count is the total, and
    approval_rate is round(approved_count / total * 100, 2) when the total
    is positive and 0 when it is 0. *)
Theorem predict_batch_stats (d : gmap string pyval)
    (records : list (gmap string pyval)) (t0 : nat) :
  d !! "records" = Some (VList (VDict <$> records)) →
  records ≠ [] →
  let resp := predict_batch (Ok (VDict d)) t0 in
  ∃ outs approved rejected rate,
    py_getitem (body resp) "predictions" = Ok (VList outs)
    ∧ py_getitem (body resp) "stats" = Ok (VDict (list_to_map
        [("total_applications", VInt (Z.of_nat (length outs)));
         ("approved_count", VInt approved);
         ("rejected_count", VInt rejected);
         ("approval_rate", rate)]))
    ∧ approved = count_approved outs
    ∧ (approved + rejected)%Z = Z.of_nat (length outs)
    ∧ (length outs = 0 → rate = VInt 0)
    ∧ (0 < length outs →
       ∃ q, int_truediv approved (Z.of_nat (length outs)) = Ok q
            ∧ rate = VFloat (py_round (q * 100)%float 2)).
Proof.
  intros Hd Hne resp. subst resp.
  rewrite (predict_batch_dicts d records t0 Hd Hne). cbn [body].
  destruct (run_initial records t0) as (outs & Hp & _ & Ha & Hr).
  exists outs, (count_approved outs),
    (Z.of_nat (length outs) - count_approved outs)%Z,
    (rate_value (count_approved outs) (length outs)).
  rewrite bundle_predictions, bundle_stats. unfold stats_of.
  rewrite Hp, Ha, Hr.
  split; [reflexivity|]. split; [reflexivity|]. split; [reflexivity|].
  split; [lia|]. split.
  - intros ->. reflexivity.
  - intros Hpos. pose proof (approval_rate_total (count_approved outs) (length outs)) as Hrate.
    destruct (length outs) as [|n] eqn:El; [lia|].
    unfold approval_rate in Hrate.
    destruct (int_truediv (count_approved outs) (Z.of_nat (Datatypes.S n)))
      as [q|e] eqn:Eq; [|discriminate].
    exists q. split; [reflexivity|]. cbn [rbind] in Hrate. congruence.
Qed.

End facts.

End BatchFacts.

(** ** Batch scoring on concrete requests *)

Module BatchExamples.
Import Rules Arith Batch BatchFacts.

Definition clock0 : nat → Z := λ n, (1700000000000000 + Z.of_nat n)%Z.
Definition iso0 : Z → string := λ _, "2023-11-14T22:13:20".
Definition str0 : exn → string := λ _, "error".

Definition rec_rejected : gmap string pyval :=
  {["loan_percent_income" := VFloat 0.5]}.
Definition rec_approved : gmap string pyval :=
  <["person_income" := VInt 60000]>
  (<["loan_percent_income" := VFloat 0.15]>
  (<["previous_loan_defaults_on_file" := VStr "No"]> ∅)).
Definition rec_bad : gmap string pyval :=
  {["loan_percent_income" := VStr "abc"]}.

Definition request (l : list pyval) : result pyval :=
  Ok (VDict {["records" := VList l]}).

(** A model whose every call raises. *)
Definition broken_model : Classifier :=
  {| predict := λ _, Raise ValueError; predict_proba := λ _, Ok [] |}.

Definition field (k : string) (o : result pyval) : result pyval :=
  rbind o (λ v, py_getitem v k).

Definition run_batch (model : option Classifier) (l : list pyval) : response :=
  predict_batch clock0 iso0 str0 model (request l) 0.

(** A batch in which every record is rejected is answered 200. *)
Example all_rejected_is_success :
  let resp := run_batch None [VDict rec_rejected; VDict rec_rejected] in
  status resp = 200%Z
  ∧ field "approved_count" (field "stats" (Ok (body resp))) = Ok (VInt 0)
  ∧ field "rejected_count" (field "stats" (Ok (body resp))) = Ok (VInt 2)
  ∧ field "approval_rate" (field "stats" (Ok (body resp))) = Ok (VFloat 0).
Proof. vm_compute. repeat split; reflexivity. Qed.

(** Of three records, the one whose processing raises is left out. *)
Example one_bad_record_of_three :
  let resp := run_batch None [VDict rec_approved; VDict rec_bad; VDict rec_rejected] in
  status resp = 200%Z
  ∧ field "total_applications" (field "stats" (Ok (body resp))) = Ok (VInt 2)
  ∧ field "approval_rate" (field "stats" (Ok (body resp))) = Ok (VFloat 50)
  ∧ rbind (field "predictions" (Ok (body resp))) py_len = Ok 2%Z.
Proof. vm_compute. repeat split; reflexivity. Qed.

(** When every record is skipped the total and the rate are 0. *)
Example all_skipped :
  let resp := run_batch None [VDict rec_bad] in
  status resp = 200%Z
  ∧ field "total_applications" (field "stats" (Ok (body resp))) = Ok (VInt 0)
  ∧ field "approval_rate" (field "stats" (Ok (body resp))) = Ok (VInt 0).
Proof. vm_compute. repeat split; reflexivity. Qed.

Example rate_one_of_three :
  field "approval_rate" (field "stats" (Ok (body
    (run_batch None [VDict rec_approved; VDict rec_rejected; VDict rec_rejected]))))
  = Ok (VFloat 33.33).
Proof. vm_compute. reflexivity. Qed.

(** Under a loaded model whose call raises, the record is decided by the
    rules and the bundle is still tagged ml_model. *)
Example fallback_keeps_tag :
  let resp := run_batch (Some broken_model) [VDict rec_rejected] in
  field "method" (Ok (body resp)) = Ok (VStr "ml_model")
  ∧ rbind (field "predictions" (Ok (body resp))) py_iter
    = Ok [entry_of rec_rejected "REJECTED" 0.75 "2023-11-14T22:13:20"].
Proof. vm_compute. split; reflexivity. Qed.

(** An element of [records] that is not a mapping raises again inside the
    handler of its turn ([record.get] in the message), which ends the loop:
    the request is answered 500. *)
Example non_mapping_element_aborts :
  run_batch None [VDict rec_approved; VInt 1]
  = Response 500 (VDict {["error" := VStr "error"]}).
Proof. vm_compute. reflexivity. Qed.

(** The name of an exception, for the text of the 500 answer. *)
Definition exn_name (e : exn) : string :=
  match e with
  | TypeError => "TypeError"
  | AttributeError => "AttributeError"
  | KeyError => "KeyError"
  | IndexError => "IndexError"
  | ValueError => "ValueError"
  | OverflowError => "OverflowError"
  | ZeroDivisionError => "ZeroDivisionError"
  | ExternalError => "ExternalError"
  end.

(** C6: a null among the records is not skipped.  Its processing raises
    ([record.get] on None), the handler of its turn raises again on the
    same call, the loop ends and the whole batch is answered 500 with that
    [AttributeError], with or without a model; the two records around it,
    sent alone, are both scored. *)
Theorem null_record_aborts_batch :
  predict_batch clock0 iso0 exn_name None
    (request [VDict rec_approved; VNone; VDict rec_rejected]) 0
  = Response 500 (VDict {["error" := VStr "AttributeError"]})
  ∧ predict_batch clock0 iso0 exn_name (Some broken_model)
      (request [VDict rec_approved; VNone; VDict rec_rejected]) 0
    = Response 500 (VDict {["error" := VStr "AttributeError"]})
  ∧ status (run_batch None [VDict rec_approved; VDict rec_rejected]) = 200%Z
  ∧ rbind (field "predictions"
             (Ok (body (run_batch None [VDict rec_approved; VDict rec_rejected]))))
          py_len = Ok 2%Z.
Proof. vm_compute. repeat split; reflexivity. Qed.

(** A request body that is not a mapping, or truthy [records] that are not
    a list, are answered 500 as well. *)
Example non_mapping_body :
  predict_batch clock0 iso0 str0 None (Ok (VList [])) 0
  = Response 500 (VDict {["error" := VStr "error"]}).
Proof. vm_compute. reflexivity. Qed.
Example records_a_number :
  predict_batch clock0 iso0 str0 None (Ok (VDict {["records" := VInt 5]})) 0
  = Response 500 (VDict {["error" := VStr "error"]}).
Proof. vm_compute. reflexivity. Qed.

Lemma predict_batch_empty_input_witness :
  status (run_batch None [VDict rec_rejected]) = 200%Z
  ∧ status (predict_batch clock0 iso0 str0 None (Ok (VDict ∅)) 0) = 400%Z.
Proof.
  split.
  - destruct (predict_batch_empty_input clock0 iso0 str0 None
                {["records" := VList [VDict rec_rejected]]}
                (Some [rec_rejected]) 0) as (Hiff & _ & H200).
    + left. vm_compute. reflexivity.
    + apply H200. intros E. apply Hiff in E as [E|E]; discriminate.
  - destruct (predict_batch_empty_input clock0 iso0 str0 None ∅ None 0)
      as (Hiff & _ & _).
    + left. vm_compute. reflexivity.
    + apply Hiff. left. reflexivity.
Defined.

Lemma predict_batch_skips_bad_records_witness :
  ∃ outs,
    py_getitem (body (run_batch None [VDict rec_approved; VDict rec_bad]))
      "predictions" = Ok (VList outs)
    ∧ length outs ≤ 2.
Proof.
  destruct (predict_batch_skips_bad_records clock0 iso0 str0 None
              {["records" := VList [VDict rec_approved; VDict rec_bad]]}
              [rec_approved; rec_bad] 0) as (_ & outs & Hp & Hl & _).
  - vm_compute. reflexivity.
  - discriminate.
  - exists outs. split; [exact Hp | exact Hl].
Defined.


Lemma predict_batch_stats_witness :
  ∃ outs approved rejected,
    py_getitem (body (run_batch None [VDict rec_approved; VDict rec_rejected]))
      "predictions" = Ok (VList outs)
    ∧ (approved + rejected)%Z = Z.of_nat (length outs).
Proof.
  destruct (predict_batch_stats clock0 iso0 str0 None
              {["records" := VList [VDict rec_approved; VDict rec_rejected]]}
              [rec_approved; rec_rejected] 0)
    as (outs & a & r & rate & Hp & _ & _ & Hsum & _).
  - vm_compute. reflexivity.
  - discriminate.
  - exists outs, a, r. split; [exact Hp | exact Hsum].
Defined.

End BatchExamples.

(** ** Properties of the normaliser *)

Module NormalizerFacts.
Import Schema Normalizer.

Ltac in_list := apply list_elem_of_In; cbn; repeat (first [left; reflexivity | right]).
Ltac cases_in H :=
  repeat (apply elem_of_cons in H as [->|H]); [..|by apply elem_of_nil in H].

(** The default of a pass-through field. *)
Definition string_default (k : string) (now : string) : string :=
  if bool_decide (k = "person_education") then "High School"
  else if bool_decide (k = "previous_loan_defaults_on_file") then "No"
  else if bool_decide (k = "application_id") then ""
  else if bool_decide (k = "timestamp") then now
  else "Unknown".

Section facts.

Variable clock : nat → Z.
Variable isoformat : Z → string.
Variable float_of_string : string → option float.
Variable int_of_string : string → option Z.

#[local] Abbreviation py_float := (Normalizer.py_float float_of_string).
#[local] Abbreviation py_int := (Normalizer.py_int int_of_string).
#[local] Abbreviation safe_float := (Normalizer.safe_float float_of_string).
#[local] Abbreviation safe_int := (Normalizer.safe_int int_of_string).
#[local] Abbreviation normalize :=
  (Normalizer.normalize clock isoformat float_of_string int_of_string).

Lemma safe_float_default value :
  is_missing value = true ∨ is_ok (py_float value) = false →
  safe_float value = 0%float.
Proof.
  unfold Normalizer.safe_float. intros [-> | H]; [reflexivity|].
  destruct (is_missing value); [reflexivity|]. cbn [negb].
  destruct (py_float value); [discriminate | reflexivity].
Qed.

Lemma safe_int_default value :
  is_missing value = true ∨ is_ok (py_int value) = false →
  safe_int value = 0%Z.
Proof.
  unfold Normalizer.safe_int. intros [-> | H]; [reflexivity|].
  destruct (is_missing value); [reflexivity|]. cbn [negb].
  destruct (py_int value); [discriminate | reflexivity].
Qed.

Lemma safe_float_absent : safe_float (VFloat 0) = 0%float.
Proof. reflexivity. Qed.
Lemma safe_int_absent : safe_int (VInt 0) = 0%Z.
Proof. reflexivity. Qed.

(** The record built from the mapping [m] at the time rendered [now]. *)
Definition normalized (m : gmap string pyval) (now : string)
  : gmap string pyval :=
  list_to_map
    [("person_age", VInt (safe_int (default (VInt 0) (m !! "person_age"))));
     ("person_income",
      VFloat (safe_float (default (VFloat 0) (m !! "person_income"))));
     ("person_emp_exp",
      VInt (safe_int (default (VInt 0) (m !! "person_emp_exp"))));
     ("loan_amnt", VFloat (safe_float (default (VFloat 0) (m !! "loan_amnt"))));
     ("loan_int_rate",
      VFloat (safe_float (default (VFloat 0) (m !! "loan_int_rate"))));
     ("loan_percent_income",
      VFloat (safe_float (default (VFloat 0) (m !! "loan_percent_income"))));
     ("cb_person_cred_hist_length",
      VInt (safe_int (default (VInt 0) (m !! "cb_person_cred_hist_length"))));
     ("person_gender", default (VStr "Unknown") (m !! "person_gender"));
     ("employment_type", default (VStr "Unknown") (m !! "employment_type"));
     ("person_home_ownership",
      default (VStr "Unknown") (m !! "person_home_ownership"));
     ("loan_intent", default (VStr "Unknown") (m !! "loan_intent"));
     ("account_type", default (VStr "Unknown") (m !! "account_type"));
     ("person_education",
      default (VStr "High School") (m !! "person_education"));
     ("previous_loan_defaults_on_file",
      default (VStr "No") (m !! "previous_loan_defaults_on_file"));
     ("application_id", default (VStr "") (m !! "application_id"));
     ("timestamp", default (VStr now) (m !! "timestamp"))].

Lemma normalize_dict (m : gmap string pyval) (f : Frame) :
  normalize (VDict m) f
  = (Ok (VDict (normalized m (isoformat (clock (ticks f))))),
     {| processed_records := processed_records f;
        ticks := Datatypes.S (ticks f) |}).
Proof. reflexivity. Qed.

Lemma normalized_fields m now k :
  is_Some (normalized m now !! k) ↔ k ∈ schema_fields.
Proof.
  split.
  - intros [v Hv]. unfold normalized in Hv.
    apply elem_of_list_to_map_2 in Hv.
    repeat (apply elem_of_cons in Hv as [Hv|Hv];
            [injection Hv as -> _; in_list|]).
    by apply elem_of_nil in Hv.
  - intros Hk. unfold schema_fields, int_fields, float_fields, string_fields in Hk.
    cbn [app] in Hk. cases_in Hk; eexists; reflexivity.
Qed.

Lemma normalized_string m now k :
  k ∈ string_fields →
  normalized m now !! k
  = Some (default (VStr (string_default k now)) (m !! k)).
Proof. intros Hk. unfold string_fields in Hk. cases_in Hk; reflexivity. Qed.

(** C2, amended: on every mapping [normalize] returns a record with
    exactly the 16 schema fields.  The seven numeric fields have their
    declared type, and are the zero default when the raw value is absent,
    [None], the empty string, the string null, or not convertible.  The
    nine other fields are the raw value unchanged when the key is present,
    whatever its type, and the declared default (for the timestamp, the
    time of normalisation) when it is absent. *)
Theorem normalize_total (m : gmap string pyval) (f : Frame) :
  ∃ r : gmap string pyval,
    normalize (VDict m) f
    = (Ok (VDict r), {| processed_records := processed_records f;
                        ticks := Datatypes.S (ticks f) |})
    ∧ (∀ k, is_Some (r !! k) ↔ k ∈ schema_fields)
    ∧ (∀ k, k ∈ int_fields →
         r !! k = Some (VInt (safe_int (default (VInt 0) (m !! k)))))
    ∧ (∀ k, k ∈ float_fields →
         r !! k = Some (VFloat (safe_float (default (VFloat 0) (m !! k)))))
    ∧ (∀ k, k ∈ int_fields →
         (m !! k = None
          ∨ ∃ v, m !! k = Some v
                 ∧ (is_missing v = true ∨ is_ok (py_int v) = false)) →
         r !! k = Some (VInt 0))
    ∧ (∀ k, k ∈ float_fields →
         (m !! k = None
          ∨ ∃ v, m !! k = Some v
                 ∧ (is_missing v = true ∨ is_ok (py_float v) = false)) →
         r !! k = Some (VFloat 0))
    ∧ (∀ k v, k ∈ string_fields → m !! k = Some v → r !! k = Some v)
    ∧ (∀ k, k ∈ string_fields → m !! k = None →
         r !! k = Some (VStr (string_default k (isoformat (clock (ticks f)))))).
Proof.
  exists (normalized m (isoformat (clock (ticks f)))).
  split; [apply normalize_dict|].
  split; [apply normalized_fields|].
  assert (Hint : ∀ k, k ∈ int_fields →
            normalized m (isoformat (clock (ticks f))) !! k
            = Some (VInt (safe_int (default (VInt 0) (m !! k))))).
  { intros k Hk. unfold int_fields in Hk. cases_in Hk; reflexivity. }
  assert (Hfloat : ∀ k, k ∈ float_fields →
            normalized m (isoformat (clock (ticks f))) !! k
            = Some (VFloat (safe_float (default (VFloat 0) (m !! k))))).
  { intros k Hk. unfold float_fields in Hk. cases_in Hk; reflexivity. }
  split; [exact Hint|]. split; [exact Hfloat|]. split; [|split; [|split]].
  - intros k Hk Hbad. rewrite (Hint k Hk). do 2 f_equal.
    destruct Hbad as [-> | (v & -> & Hv)]; [reflexivity|].
    apply safe_int_default, Hv.
  - intros k Hk Hbad. rewrite (Hfloat k Hk). do 2 f_equal.
    destruct Hbad as [-> | (v & -> & Hv)]; [reflexivity|].
    apply safe_float_default, Hv.
  - intros k v Hk Hv. rewrite (normalized_string _ _ k Hk), Hv. reflexivity.
  - intros k Hk Hv. rewrite (normalized_string _ _ k Hk), Hv. reflexivity.
Qed.

End facts.

(** C2 as stated fails on a pass-through field: a null (or a number) under
    a string field is kept, so the output is not a canonical record. *)
Lemma normalize_keeps_wrong_type :
  ∃ r f',
    Normalizer.normalize (λ _, 0%Z) (λ _, "now") (λ _, None) (λ _, None)
      (VDict {["person_gender" := VNone]})
      {| processed_records := []; ticks := 0 |} = (Ok (VDict r), f')
    ∧ r !! "person_gender" = Some VNone
    ∧ canonical r = false.
Proof.
  eexists _, _. split; [reflexivity|]. split; vm_compute; reflexivity.
Qed.

Example normalize_empty_mapping :
  canonical (normalized (λ _, None) (λ _, None) ∅ "now") = true.
Proof. vm_compute. reflexivity. Qed.

Example normalize_wrong_numeric_types :
  let r := normalized (λ _, None) (λ _, None)
             (<["person_age" := VStr "old"]>
              (<["person_income" := VNone]>
              (<["loan_amnt" := VList []]>
              (<["person_emp_exp" := VFloat 3.9]>
              (<["loan_int_rate" := VInt 7]> ∅))))) "now" in
  r !! "person_age" = Some (VInt 0)
  ∧ r !! "person_income" = Some (VFloat 0)
  ∧ r !! "loan_amnt" = Some (VFloat 0)
  ∧ r !! "person_emp_exp" = Some (VInt 3)
  ∧ r !! "loan_int_rate" = Some (VFloat 7)
  ∧ canonical r = true.
Proof. vm_compute. repeat split; reflexivity. Qed.

End NormalizerFacts.

(** ** Properties of the result cache *)

Module CacheFacts.
Import Cache.

#[local] Opaque read_limit.

(** The world after [n] more clock readings, after requests for [keys],
    and after a refill. *)
Definition ticked (n : nat) (w : World) : World :=
  {| CACHE := CACHE w; bucket := bucket w; requested := requested w;
     ticks := n + ticks w |}.
Definition logged (keys : list string) (w : World) : World :=
  {| CACHE := CACHE w; bucket := bucket w; requested := requested w ++ keys;
     ticks := ticks w |}.
Definition refilled (result : pyval) (now : Z) (w : World) : World :=
  {| CACHE := {| data := result; timestamp := Some now; ttl := ttl (CACHE w) |};
     bucket := bucket w; requested := requested w; ticks := ticks w |}.

Definition has_decision (p : pyval) : bool := is_ok (py_getitem p "decision").
Definition decision_is (want : string) (p : pyval) : bool :=
  match py_getitem p "decision" with
  | Ok d => py_eq_str d want
  | Raise _ => false
  end.

Lemma select_decision_filter want items :
  forallb has_decision items = true →
  select_decision want items = Ok (List.filter (decision_is want) items).
Proof.
  induction items as [|p rest IH]; intros H; [reflexivity|].
  cbn in H. apply andb_prop in H as [Hp Hrest].
  cbn [select_decision List.filter]. rewrite (IH Hrest).
  unfold has_decision in Hp. unfold decision_is.
  destruct (py_getitem p "decision") as [d|e]; [|discriminate].
  cbn [rbind]. destruct (py_eq_str d want); reflexivity.
Qed.

Lemma select_decision_raises want items :
  forallb has_decision items = false →
  is_ok (select_decision want items) = false.
Proof.
  induction items as [|p rest IH]; intros H; [discriminate|].
  cbn in H. cbn [select_decision]. unfold has_decision in H.
  destruct (py_getitem p "decision") as [d|e]; [|reflexivity].
  cbn in H. cbn [rbind]. specialize (IH H).
  destruct (select_decision want rest); [discriminate | reflexivity].
Qed.

Lemma filter_all want items :
  Forall (λ p, decision_is want p = true) (List.filter (decision_is want) items).
Proof.
  apply Forall_forall. intros p Hp.
  apply list_elem_of_In, filter_In in Hp. tauto.
Qed.

Lemma take_filter_all n want items :
  Forall (λ p, decision_is want p = true)
         (take n (List.filter (decision_is want) items)).
Proof. apply Forall_take, filter_all. Qed.

Section facts.

Variable clock : nat → Z.
Variable strftime : Z → string.
Variable isoformat : Z → string.
Variable decode : list Byte.byte → option string.
Variable json_loads : string → option pyval.
Variable str_exn : exn → string.

#[local] Abbreviation get_cached_data := (Cache.get_cached_data clock).
#[local] Abbreviation attempt :=
  (Cache.attempt clock strftime isoformat decode json_loads).
#[local] Abbreviation try_days :=
  (Cache.try_days clock strftime isoformat decode json_loads).
#[local] Abbreviation load_predictions_fast :=
  (Cache.load_predictions_fast clock strftime isoformat decode json_loads).
#[local] Abbreviation get_latest :=
  (Cache.get_latest clock strftime isoformat decode json_loads str_exn).

(** The key requested for [days_ago] when [t] clock readings were taken. *)
Definition key_at (t : nat) (days_ago : Z) : string :=
  partition_key (strftime (clock t - days_ago * microseconds_per_day)%Z).

(** What a fetch of [key] yields: [None] when the object is not found or
    its (first megabyte of) contents does not decode or parse. *)
Definition fetch_doc (b : gmap string (list Byte.byte)) (key : string)
  : option pyval :=
  raw ← b !! key; content ← decode (take read_limit raw); json_loads content.

(** What [get_cached_data] returns in [w], and whether it read the clock. *)
Definition cached_value (w : World) : pyval :=
  match data (CACHE w), timestamp (CACHE w) with
  | VNone, _ | _, None => VNone
  | cached, Some fetched_at =>
      if (clock (ticks w) - fetched_at
          <? ttl (CACHE w) * microseconds_per_second)%Z
      then cached else VNone
  end.
Definition after_lookup (w : World) : World :=
  match data (CACHE w), timestamp (CACHE w) with
  | VNone, _ | _, None => w
  | _, Some _ => ticked 1 w
  end.

Lemma get_cached_data_spec w :
  get_cached_data w = (Ok (cached_value w), after_lookup w).
Proof.
  unfold Cache.get_cached_data, cached_value, after_lookup, bind, get.
  destruct (data (CACHE w)), (timestamp (CACHE w)); try reflexivity;
    unfold datetime_now, ret;
    match goal with |- context [Z.ltb ?a ?b] => destruct (Z.ltb a b) end;
    reflexivity.
Qed.

Lemma after_lookup_CACHE w : CACHE (after_lookup w) = CACHE w.
Proof. unfold after_lookup. by destruct (data (CACHE w)), (timestamp (CACHE w)). Qed.
Lemma after_lookup_bucket w : bucket (after_lookup w) = bucket w.
Proof. unfold after_lookup. by destruct (data (CACHE w)), (timestamp (CACHE w)). Qed.
Lemma after_lookup_requested w : requested (after_lookup w) = requested w.
Proof. unfold after_lookup. by destruct (data (CACHE w)), (timestamp (CACHE w)). Qed.

(** A cache hit: nothing but the clock is touched. *)
Lemma load_hit w :
  truthy (cached_value w) = true →
  load_predictions_fast w = (Ok (cached_value w), after_lookup w).
Proof.
  intros H. unfold Cache.load_predictions_fast, bind.
  rewrite get_cached_data_spec, H. reflexivity.
Qed.

(** A cache miss: the loop over today and yesterday runs. *)
Lemma load_miss w :
  truthy (cached_value w) = false →
  load_predictions_fast w
  = match try_days [0%Z; 1%Z] (after_lookup w) with
    | (Ok (Some result), w') => (Ok result, w')
    | (Ok None, w') =>
        (Ok (empty_bundle (isoformat (clock (ticks w')))), ticked 1 w')
    | (Raise e, w') => (Raise e, w')
    end.
Proof.
  intros H. unfold Cache.load_predictions_fast, bind.
  rewrite get_cached_data_spec, H.
  destruct (try_days [0%Z; 1%Z] (after_lookup w)) as [[[r|]|e] w']; reflexivity.
Qed.

(** *** One attempt *)

Lemma capped_bundle_predictions a r tot ac rc ar ts date dflt :
  py_get (capped_bundle a r tot ac rc ar ts date) "predictions" dflt
  = Ok (VList (take 20 a ++ take 20 r)).
Proof. reflexivity. Qed.

(** The object is not there, or does not decode or parse: the attempt
    raises, and only the request and one clock reading are left of it. *)
Lemma attempt_not_fetched d w :
  fetch_doc (bucket w) (key_at (ticks w) d) = None →
  ∃ e, attempt d w = (Raise e, logged [key_at (ticks w) d] (ticked 1 w)).
Proof.
  intros H. unfold fetch_doc in H.
  unfold Cache.attempt, bind, lift, datetime_now, s3_get_object.
  cbn [ticks bucket CACHE requested]. fold (key_at (ticks w) d).
  destruct (bucket w !! key_at (ticks w) d) as [raw|]; cbn [mbind option_bind] in H.
  - destruct (decode (take read_limit raw)) as [content|]; cbn [mbind option_bind] in H.
    + rewrite H. by exists ValueError.
    + by exists ValueError.
  - by exists ExternalError.
Qed.

(** A mapping without a predictions key is cached and returned as it is. *)
Lemma attempt_wholesale d w (m : gmap string pyval) :
  fetch_doc (bucket w) (key_at (ticks w) d) = Some (VDict m) →
  m !! "predictions" = None →
  attempt d w
  = (Ok (VDict m),
     refilled (VDict m) (clock (Datatypes.S (ticks w)))
       (logged [key_at (ticks w) d] (ticked 2 w))).
Proof.
  intros H Hp. unfold fetch_doc in H.
  unfold Cache.attempt, bind, lift, datetime_now, s3_get_object.
  cbn [ticks bucket CACHE requested]. fold (key_at (ticks w) d).
  destruct (bucket w !! key_at (ticks w) d) as [raw|]; [|discriminate].
  cbn [mbind option_bind] in H.
  destruct (decode (take read_limit raw)) as [content|]; [|discriminate].
  cbn [mbind option_bind] in H. rewrite H.
  unfold py_contains. rewrite Hp.
  rewrite bool_decide_eq_false_2 by (intros [? ?]; discriminate).
  unfold ret, set_cache, modify, py_get. rewrite Hp. reflexivity.
Qed.

(** The statistics the capped bundle copies from the document. *)
Definition source_stat (m : gmap string pyval) (k : string) : pyval :=
  match m !! "stats" with
  | Some (VDict s) => default (VInt 0) (s !! k)
  | _ => VInt 0
  end.
Definition stats_readable (m : gmap string pyval) : bool :=
  match m !! "stats" with
  | None | Some (VDict _) => true
  | _ => false
  end.

Definition capped_of (m : gmap string pyval) (items : list pyval)
    (ts date : string) : pyval :=
  capped_bundle (List.filter (decision_is "APPROVED") items)
    (List.filter (decision_is "REJECTED") items)
    (source_stat m "total_applications") (source_stat m "approved_count")
    (source_stat m "rejected_count") (source_stat m "approval_rate") ts date.

(** A mapping with a list of predictions, each with a decision, and with
    readable statistics: the capped bundle is built, cached and returned. *)
Lemma attempt_capped d w (m : gmap string pyval) items :
  fetch_doc (bucket w) (key_at (ticks w) d) = Some (VDict m) →
  m !! "predictions" = Some (VList items) →
  forallb has_decision items = true →
  stats_readable m = true →
  let result :=
    capped_of m items (isoformat (clock (Datatypes.S (ticks w))))
      (strftime (clock (ticks w) - d * microseconds_per_day)%Z) in
  attempt d w
  = (Ok result,
     refilled result (clock (Datatypes.S (Datatypes.S (ticks w))))
       (logged [key_at (ticks w) d] (ticked 3 w))).
Proof.
  intros H Hp Hdec Hstats result. unfold fetch_doc in H.
  unfold Cache.attempt, bind, lift, datetime_now, s3_get_object.
  cbn [ticks bucket CACHE requested]. fold (key_at (ticks w) d).
  destruct (bucket w !! key_at (ticks w) d) as [raw|]; [|discriminate].
  cbn [mbind option_bind] in H.
  destruct (decode (take read_limit raw)) as [content|]; [|discriminate].
  cbn [mbind option_bind] in H. rewrite H.
  unfold py_contains. rewrite Hp.
  rewrite bool_decide_eq_true_2 by eauto.
  unfold py_getitem at 1. rewrite Hp. cbn [rbind py_iter].
  rewrite !(select_decision_filter _ _ Hdec).
  assert (Hs : ∃ s, py_get (VDict m) "stats" (VDict ∅) = Ok (VDict s)
                    ∧ ∀ k, default (VInt 0) (s !! k) = source_stat m k).
  { unfold stats_readable in Hstats. unfold py_get, source_stat.
    destruct (m !! "stats") as [[]|]; try discriminate.
    - eexists. split; [reflexivity|]. reflexivity.
    - exists ∅. split; [reflexivity|]. intros k. by rewrite lookup_empty. }
  destruct Hs as (s & -> & Hs).
  unfold py_get at 1 2 3 4. rewrite !Hs.
  unfold ret, set_cache, modify. cbn [ticks bucket CACHE requested].
  rewrite capped_bundle_predictions. reflexivity.
Qed.

(** Whatever its outcome, an attempt makes exactly one request, for its
    own partition, and leaves the bucket and the TTL alone. *)
Lemma attempt_effects d w :
  requested (attempt d w).2 = requested w ++ [key_at (ticks w) d]
  ∧ bucket (attempt d w).2 = bucket w
  ∧ ttl (CACHE (attempt d w).2) = ttl (CACHE w)
  ∧ ticks w < ticks (attempt d w).2.
Proof.
  unfold Cache.attempt, bind, lift, datetime_now, s3_get_object, set_cache,
    modify, ret.
  cbn [ticks bucket CACHE requested]. fold (key_at (ticks w) d).
  repeat case_match; simplify_eq/=; repeat split; lia.
Qed.

(** The loop over today and yesterday, unrolled. *)
Lemma try_days_two w :
  try_days [0%Z; 1%Z] w
  = match attempt 0 w with
    | (Ok result, w1) => (Ok (Some result), w1)
    | (Raise _, w1) =>
        match attempt 1 w1 with
        | (Ok result, w2) => (Ok (Some result), w2)
        | (Raise _, w2) => (Ok None, w2)
        end
    end.
Proof.
  cbn [Cache.try_days]. unfold try_except, bind, ret.
  destruct (attempt 0 w) as [[r|e] w1]; [reflexivity|].
  destruct (attempt 1 w1) as [[r|e'] w2]; reflexivity.
Qed.

(** *** A read that misses the cache *)

Lemma load_today w result w1 :
  truthy (cached_value w) = false →
  attempt 0 (after_lookup w) = (Ok result, w1) →
  load_predictions_fast w = (Ok result, w1).
Proof. intros Hm H. by rewrite (load_miss _ Hm), try_days_two, H. Qed.

Lemma load_yesterday w e w1 result w2 :
  truthy (cached_value w) = false →
  attempt 0 (after_lookup w) = (Raise e, w1) →
  attempt 1 w1 = (Ok result, w2) →
  load_predictions_fast w = (Ok result, w2).
Proof. intros Hm H0 H1. by rewrite (load_miss _ Hm), try_days_two, H0, H1. Qed.

Lemma load_nothing w e w1 e' w2 :
  truthy (cached_value w) = false →
  attempt 0 (after_lookup w) = (Raise e, w1) →
  attempt 1 w1 = (Raise e', w2) →
  load_predictions_fast w
  = (Ok (empty_bundle (isoformat (clock (ticks w2)))), ticked 1 w2).
Proof. intros Hm H0 H1. by rewrite (load_miss _ Hm), try_days_two, H0, H1. Qed.

(** The document that a missing read gets: today's, or yesterday's when
    today's partition is not there or does not parse. *)
Definition fetched (w : World) (doc : pyval) : Prop :=
  let t := ticks (after_lookup w) in
  fetch_doc (bucket w) (key_at t 0) = Some doc
  ∨ (fetch_doc (bucket w) (key_at t 0) = None
     ∧ fetch_doc (bucket w) (key_at (Datatypes.S t) 1) = Some doc).

(** A missing read that gets a document an attempt accepts returns what
    that attempt returns, and leaves it in the cache. *)
Lemma load_fetched w doc (result : string → string → pyval) :
  truthy (cached_value w) = false →
  fetched w doc →
  (∀ d w0, bucket w0 = bucket w →
     fetch_doc (bucket w0) (key_at (ticks w0) d) = Some doc →
     ∃ now t' now', attempt d w0
       = (Ok (result now (strftime (clock (ticks w0) - d * microseconds_per_day)%Z)),
          refilled (result now (strftime (clock (ticks w0) - d * microseconds_per_day)%Z))
            now' (logged [key_at (ticks w0) d] (ticked t' w0)))) →
  ∃ now date w',
    load_predictions_fast w = (Ok (result now date), w')
    ∧ data (CACHE w') = result now date
    ∧ is_Some (timestamp (CACHE w'))
    ∧ bucket w' = bucket w.
Proof.
  intros Hm Hf Hatt. unfold fetched in Hf.
  destruct Hf as [H0 | [H0 H1]].
  - rewrite <- (after_lookup_bucket w) in H0.
    destruct (Hatt 0%Z (after_lookup w) (after_lookup_bucket w) H0)
      as (now & t' & now' & Ha).
    eexists _, _, _. split; [exact (load_today _ _ _ Hm Ha)|].
    cbn. rewrite after_lookup_bucket. eauto.
  - rewrite <- (after_lookup_bucket w) in H0.
    destruct (attempt_not_fetched 0 (after_lookup w) H0) as [e Ha0].
    set (w1 := logged [key_at (ticks (after_lookup w)) 0] (ticked 1 (after_lookup w))) in *.
    assert (Hb1 : bucket w1 = bucket w) by (cbn; apply after_lookup_bucket).
    assert (Ht1 : ticks w1 = Datatypes.S (ticks (after_lookup w))) by reflexivity.
    rewrite <- Ht1, <- Hb1 in H1.
    destruct (Hatt 1%Z w1 Hb1 H1) as (now & t' & now' & Ha1).
    eexists _, _, _. split; [exact (load_yesterday _ _ _ _ _ Hm Ha0 Ha1)|].
    cbn. rewrite after_lookup_bucket. eauto.
Qed.

Lemma decision_exclusive p :
  decision_is "APPROVED" p = true → decision_is "REJECTED" p = false.
Proof.
  unfold decision_is. destruct (py_getitem p "decision") as [v|]; [|done].
  destruct v; try done. cbn. intros H%bool_decide_eq_true. by subst.
Qed.

Lemma filter_id (f : pyval → bool) l :
  Forall (λ p, f p = true) l → List.filter f l = l.
Proof.
  induction 1 as [|p l Hp _ IH]; [reflexivity|].
  cbn. by rewrite Hp, IH.
Qed.
Lemma filter_none (f : pyval → bool) l :
  Forall (λ p, f p = false) l → List.filter f l = [].
Proof.
  induction 1 as [|p l Hp _ IH]; [reflexivity|].
  cbn. by rewrite Hp, IH.
Qed.

(** In the capped list the entries of each decision are the first 20 of
    the source with that decision. *)
Lemma capped_filter items :
  let approved := List.filter (decision_is "APPROVED") items in
  let rejected := List.filter (decision_is "REJECTED") items in
  List.filter (decision_is "APPROVED") (take 20 approved ++ take 20 rejected)
  = take 20 approved
  ∧ List.filter (decision_is "REJECTED") (take 20 approved ++ take 20 rejected)
    = take 20 rejected.
Proof.
  intros approved rejected.
  pose proof (take_filter_all 20 "APPROVED" items) as Ha.
  pose proof (take_filter_all 20 "REJECTED" items) as Hr.
  fold approved in Ha. fold rejected in Hr.
  rewrite !List.filter_app. split.
  - rewrite (filter_id _ _ Ha), (filter_none (decision_is "APPROVED") (take 20 rejected)).
    + apply app_nil_r.
    + eapply Forall_impl; [exact Hr|]. cbn. intros p Hp.
      destruct (decision_is "APPROVED" p) eqn:E; [|done].
      apply decision_exclusive in E. congruence.
  - rewrite (filter_id _ _ Hr), (filter_none (decision_is "REJECTED") (take 20 approved)).
    + reflexivity.
    + eapply Forall_impl; [exact Ha|]. cbn. intros p Hp.
      by apply decision_exclusive.
Qed.

(** C3: a read that misses the cache and gets a document with a list of
    predictions returns, and caches, the bundle whose list is the first 20
    APPROVED entries followed by the first 20 REJECTED entries, each in
    source order; so it has at most 20 of each, the APPROVED before the
    REJECTED, and its four counts are those of the document's stats. *)
Theorem load_predictions_fast_capped w (m : gmap string pyval) items :
  truthy (cached_value w) = false →
  fetched w (VDict m) →
  m !! "predictions" = Some (VList items) →
  forallb has_decision items = true →
  stats_readable m = true →
  let approved := List.filter (decision_is "APPROVED") items in
  let rejected := List.filter (decision_is "REJECTED") items in
  ∃ now date w',
    load_predictions_fast w = (Ok (capped_of m items now date), w')
    ∧ data (CACHE w') = capped_of m items now date
    ∧ py_getitem (capped_of m items now date) "predictions"
      = Ok (VList (take 20 approved ++ take 20 rejected))
    ∧ List.filter (decision_is "APPROVED") (take 20 approved ++ take 20 rejected)
      = take 20 approved
    ∧ List.filter (decision_is "REJECTED") (take 20 approved ++ take 20 rejected)
      = take 20 rejected
    ∧ length (take 20 approved) ≤ 20
    ∧ length (take 20 rejected) ≤ 20
    ∧ Forall (λ p, decision_is "APPROVED" p = true) (take 20 approved)
    ∧ Forall (λ p, decision_is "REJECTED" p = true) (take 20 rejected)
    ∧ (∀ k, k ∈ ["total_applications"; "approved_count"; "rejected_count";
                 "approval_rate"] →
         py_getitem (capped_of m items now date) k = Ok (source_stat m k)).
Proof.
  intros Hm Hf Hp Hdec Hstats approved rejected.
  destruct (load_fetched w (VDict m) (capped_of m items) Hm Hf)
    as (now & date & w' & Hload & Hdata & _ & _).
  { intros d w0 Hb H0. eexists _, 3, _.
    exact (attempt_capped d w0 m items H0 Hp Hdec Hstats). }
  exists now, date, w'.
  split; [exact Hload|]. split; [exact Hdata|]. split; [reflexivity|].
  destruct (capped_filter items) as [Ha Hr].
  split; [exact Ha|]. split; [exact Hr|].
  split; [rewrite length_take; lia|]. split; [rewrite length_take; lia|].
  split; [apply take_filter_all|]. split; [apply take_filter_all|].
  intros k Hk. repeat (apply elem_of_cons in Hk as [->|Hk]); try reflexivity.
  by apply elem_of_nil in Hk.
Qed.

(** C10: a read that misses the cache and gets a mapping without a
    predictions key returns that mapping itself and stores it in the cache:
    nothing is filtered, capped, reshaped or defaulted, so the returned
    value has a field exactly when the document has it, and no list of
    predictions at all. *)
Theorem load_predictions_fast_wholesale w (m : gmap string pyval) :
  truthy (cached_value w) = false →
  fetched w (VDict m) →
  m !! "predictions" = None →
  ∃ w',
    load_predictions_fast w = (Ok (VDict m), w')
    ∧ get_latest w = (Ok (Response 200 (VDict m)), w')
    ∧ data (CACHE w') = VDict m
    ∧ is_Some (timestamp (CACHE w'))
    ∧ py_getitem (VDict m) "predictions" = Raise KeyError
    ∧ (∀ k, m !! k = None → py_getitem (VDict m) k = Raise KeyError).
Proof.
  intros Hm Hf Hp.
  destruct (load_fetched w (VDict m) (λ _ _, VDict m) Hm Hf)
    as (_ & _ & w' & Hload & Hdata & Hts & _).
  { intros d w0 Hb H0. exists "", 2, (clock (Datatypes.S (ticks w0))).
    exact (attempt_wholesale d w0 m H0 Hp). }
  exists w'. split; [exact Hload|]. split.
  { unfold Cache.get_latest, try_except, bind. rewrite Hload. reflexivity. }
  split; [exact Hdata|]. split; [exact Hts|].
  split; [cbn; by rewrite Hp|]. intros k Hk. cbn. by rewrite Hk.
Qed.

(** C7: when the cache misses and neither today's nor yesterday's
    partition is found or parses, the read returns the empty bundle (no
    predictions, total, counts and rate 0) as a 200 answer, after exactly
    the two requests, and the cache is what it was: the empty bundle is not
    stored.  With nothing cached, the next read requests the bucket
    again. *)
Theorem load_predictions_fast_nothing w :
  truthy (cached_value w) = false →
  let t := ticks (after_lookup w) in
  fetch_doc (bucket w) (key_at t 0) = None →
  fetch_doc (bucket w) (key_at (Datatypes.S t) 1) = None →
  ∃ w',
    let result := empty_bundle (isoformat (clock (Datatypes.S (Datatypes.S t)))) in
    load_predictions_fast w = (Ok result, w')
    ∧ get_latest w = (Ok (Response 200 result), w')
    ∧ py_getitem result "predictions" = Ok (VList [])
    ∧ py_getitem result "total_applications" = Ok (VInt 0)
    ∧ py_getitem result "approved_count" = Ok (VInt 0)
    ∧ py_getitem result "rejected_count" = Ok (VInt 0)
    ∧ py_getitem result "approval_rate" = Ok (VInt 0)
    ∧ CACHE w' = CACHE w
    ∧ requested w' = requested w ++ [key_at t 0; key_at (Datatypes.S t) 1]
    ∧ (data (CACHE w) = VNone →
       ∀ w2, CACHE w2 = CACHE w' →
         ∃ key rest,
           requested (load_predictions_fast w2).2 = requested w2 ++ key :: rest).
Proof.
  intros Hm t H0 H1. subst t.
  rewrite <- (after_lookup_bucket w) in H0.
  destruct (attempt_not_fetched 0 (after_lookup w) H0) as [e Ha0].
  set (w1 := logged [key_at (ticks (after_lookup w)) 0]
               (ticked 1 (after_lookup w))) in *.
  assert (Hb1 : bucket w1 = bucket w) by (cbn; apply after_lookup_bucket).
  assert (Ht1 : ticks w1 = Datatypes.S (ticks (after_lookup w))) by reflexivity.
  rewrite <- Ht1, <- Hb1 in H1.
  destruct (attempt_not_fetched 1 w1 H1) as [e' Ha1].
  pose proof (load_nothing _ _ _ _ _ Hm Ha0 Ha1) as Hload.
  eexists. split; [exact Hload|]. split.
  { unfold Cache.get_latest, try_except, bind. rewrite Hload. reflexivity. }
  do 5 (split; [reflexivity|]).
  split; [cbn; apply after_lookup_CACHE|]. split.
  { cbn. rewrite after_lookup_requested, <- app_assoc. reflexivity. }
  intros Hnone w2 HC.
  assert (Hm2 : truthy (cached_value w2) = false).
  { unfold cached_value. rewrite HC. cbn. rewrite after_lookup_CACHE, Hnone.
    reflexivity. }
  rewrite (load_miss _ Hm2), try_days_two.
  assert (Hl2 : after_lookup w2 = w2).
  { unfold after_lookup. rewrite HC. cbn. rewrite after_lookup_CACHE, Hnone.
    reflexivity. }
  rewrite Hl2.
  destruct (attempt_effects 0 w2) as (Hr0 & _).
  destruct (attempt 0 w2) as [[r|e0] w3] eqn:E0; cbn [snd] in *.
  - eexists _, []. exact Hr0.
  - destruct (attempt_effects 1 w3) as (Hr1 & _).
    destruct (attempt 1 w3) as [[r|e1] w4] eqn:E1; cbn [snd] in *.
    + eexists _, [_]. rewrite Hr1, Hr0, <- app_assoc. reflexivity.
    + eexists _, [_]. cbn [ticked requested].
      rewrite Hr1, Hr0, <- app_assoc. reflexivity.
Qed.

(** Every capped bundle is a non-empty mapping. *)
Lemma capped_bundle_truthy a r tot ac rc ar ts date :
  truthy (capped_bundle a r tot ac rc ar ts date) = true.
Proof.
  unfold truthy, capped_bundle. rewrite bool_decide_eq_false_2; [done|].
  intros E. apply (f_equal (λ m : gmap string pyval, m !! "predictions")) in E.
  discriminate E.
Qed.

(** X23: a read finds a cache entry usable when its bundle is not
    None, is non-empty (true as a condition) and is younger than the TTL;
    then it returns the bundle as it is, makes no request and leaves the
    cache alone, and so does any later read while the entry is younger
    than the TTL.  Otherwise the read makes one request for today's
    partition and, only when that attempt raises, one more for yesterday's:
    the first attempt that returns gives the result, and when both raise
    the result is the empty bundle. *)
Theorem load_predictions_fast_ttl w :
  (∀ b t,
     data (CACHE w) = b → timestamp (CACHE w) = Some t →
     truthy b = true →
     (clock (ticks w) - t < ttl (CACHE w) * microseconds_per_second)%Z →
     load_predictions_fast w = (Ok b, ticked 1 w)
     ∧ ∀ w2,
         CACHE w2 = CACHE w →
         (clock (ticks w2) - t < ttl (CACHE w) * microseconds_per_second)%Z →
         load_predictions_fast w2 = (Ok b, ticked 1 w2))
  ∧ (truthy (cached_value w) = false →
     let w0 := after_lookup w in
     ∃ result w',
       load_predictions_fast w = (Ok result, w')
       ∧ (attempt 0 w0 = (Ok result, w')
          ∧ requested w' = requested w ++ [key_at (ticks w0) 0]
          ∨ ∃ e w1,
              attempt 0 w0 = (Raise e, w1)
              ∧ (attempt 1 w1 = (Ok result, w')
                 ∧ requested w'
                   = requested w ++ [key_at (ticks w0) 0; key_at (ticks w1) 1]
                 ∨ ∃ e' w2,
                     attempt 1 w1 = (Raise e', w2)
                     ∧ result = empty_bundle (isoformat (clock (ticks w2)))
                     ∧ w' = ticked 1 w2
                     ∧ requested w'
                       = requested w
                         ++ [key_at (ticks w0) 0; key_at (ticks w1) 1]))).
Proof.
  assert (Hhit : ∀ w b t,
     data (CACHE w) = b → timestamp (CACHE w) = Some t →
     truthy b = true →
     (clock (ticks w) - t < ttl (CACHE w) * microseconds_per_second)%Z →
     load_predictions_fast w = (Ok b, ticked 1 w)).
  { intros w' b t Hb Ht Htr Hlt.
    assert (Hv : cached_value w' = b).
    { unfold cached_value. rewrite Hb, Ht.
      apply Z.ltb_lt in Hlt. rewrite Hlt. by destruct b. }
    assert (Hl : after_lookup w' = ticked 1 w').
    { unfold after_lookup. rewrite Hb, Ht. by destruct b. }
    rewrite <- Hv in Htr. rewrite (load_hit _ Htr), Hv, Hl. reflexivity. }
  split.
  - intros b t Hb Ht Htr Hlt. split; [by apply (Hhit w b t)|].
    intros w2 HC Hlt2. apply (Hhit w2 b t); rewrite ?HC; done.
  - intros Hm w0. subst w0.
    rewrite (load_miss _ Hm), try_days_two.
    destruct (attempt_effects 0 (after_lookup w)) as (Hr0 & _).
    rewrite after_lookup_requested in Hr0.
    destruct (attempt 0 (after_lookup w)) as [[r|e] w1] eqn:E0; cbn [snd] in *.
    + exists r, w1. split; [reflexivity|]. left. split; [reflexivity | exact Hr0].
    + destruct (attempt_effects 1 w1) as (Hr1 & _).
      rewrite Hr0, <- app_assoc in Hr1. cbn [app] in Hr1.
      destruct (attempt 1 w1) as [[r|e1] w2] eqn:E1; cbn [snd] in *.
      * exists r, w2. split; [reflexivity|]. right. exists e, w1.
        split; [reflexivity|]. left. split; [exact E1 | exact Hr1].
      * eexists _, _. split; [reflexivity|]. right. exists e, w1.
        split; [reflexivity|]. right. exists e1, w2.
        split; [exact E1|]. split; [reflexivity|]. split; [reflexivity|].
        exact Hr1.
Qed.

End facts.

End CacheFacts.

(** ** The result cache on concrete worlds *)

Module CacheExamples.
Import Cache CacheFacts.

(** A clock that advances one microsecond per reading, late on
    2023-11-14. *)
Definition clock0 (n : nat) : Z := (1700000000000000 + Z.of_nat n)%Z.
Definition strftime0 (t : Z) : string :=
  if (t <? 1700000000000000)%Z then "20231113" else "20231114".
Definition isoformat0 (t : Z) : string := "2023-11-14T22:13:20".
Definition decode0 (raw : list Byte.byte) : option string :=
  Some (String.string_of_list_byte raw).
Definition str0 : exn → string := λ _, "error".

Definition entry (id decision : string) : pyval :=
  VDict (<["application_id" := VStr id]> {["decision" := VStr decision]}).

Definition doc_items : list pyval :=
  [entry "a1" "APPROVED"; entry "r1" "REJECTED"; entry "a2" "APPROVED"].
Definition doc_capped : gmap string pyval :=
  <["predictions" := VList doc_items]>
  {["stats" := VDict (<["total_applications" := VInt 3]>
                      {["approval_rate" := VFloat 66.67]})]}.
Definition doc_legacy : gmap string pyval :=
  {["results" := VList doc_items]}.

(** A parser that knows four documents. *)
Definition json_loads0 (content : string) : option pyval :=
  if bool_decide (content = "capped") then Some (VDict doc_capped)
  else if bool_decide (content = "legacy") then Some (VDict doc_legacy)
  else if bool_decide (content = "empty") then Some (VDict ∅)
  else if bool_decide (content = "list") then Some (VList [VInt 1])
  else None.

Definition today_key : string := "predictions/20231114/predictions_20231114.json".
Definition yesterday_key : string := "predictions/20231113/predictions_20231113.json".

Definition world (c : cache) (today yesterday : option string) : World :=
  {| CACHE := c;
     bucket :=
       match today with
       | Some s => {[today_key := String.list_byte_of_string s]}
       | None => ∅
       end ∪
       match yesterday with
       | Some s => {[yesterday_key := String.list_byte_of_string s]}
       | None => ∅
       end;
     requested := [];
     ticks := 0 |}.

Definition load (w : World) : result pyval * World :=
  load_predictions_fast clock0 strftime0 isoformat0 decode0 json_loads0 w.

Example read_today :
  (load (world initial_cache (Some "capped") None)).1
  = Ok (capped_of doc_capped doc_items "2023-11-14T22:13:20" "20231114")
  ∧ requested (load (world initial_cache (Some "capped") None)).2 = [today_key].
Proof. vm_compute. split; reflexivity. Qed.

Example read_yesterday :
  (load (world initial_cache None (Some "capped"))).1
  = Ok (capped_of doc_capped doc_items "2023-11-14T22:13:20" "20231113")
  ∧ requested (load (world initial_cache None (Some "capped"))).2
    = [today_key; yesterday_key].
Proof. vm_compute. split; reflexivity. Qed.

Example capped_order :
  py_getitem (capped_of doc_capped doc_items "" "") "predictions"
  = Ok (VList [entry "a1" "APPROVED"; entry "a2" "APPROVED"; entry "r1" "REJECTED"]).
Proof. vm_compute. reflexivity. Qed.

(** A document that is a list parses and has no predictions element: it
    is stored in the cache, then the attempt raises and the loop goes on;
    the read returns the empty bundle and the next read serves the list. *)
Example list_document :
  let w1 := (load (world initial_cache (Some "list") None)).2 in
  (load (world initial_cache (Some "list") None)).1
  = Ok (empty_bundle "2023-11-14T22:13:20")
  ∧ data (CACHE w1) = VList [VInt 1]
  ∧ (load w1).1 = Ok (VList [VInt 1]).
Proof. vm_compute. repeat split; reflexivity. Qed.

(** C4: the read path on an empty document.  A first read fetches the
    document and caches it with the time; one microsecond later the entry
    exists and is younger than the TTL, and [health] reports the cache as
    valid, yet a second read does not serve the entry: [if cached:] takes
    the empty bundle for a miss and today's partition is requested
    again. *)
Lemma empty_bundle_refetched_within_ttl :
  let w0 := world initial_cache (Some "empty") None in
  let w1 := (load w0).2 in
  let w2 := (load w1).2 in
  (load w0).1 = Ok (VDict ∅)
  ∧ data (CACHE w1) = VDict ∅
  ∧ timestamp (CACHE w1) = Some (clock0 1)
  ∧ (clock0 (ticks w1) - clock0 1 < ttl (CACHE w1) * microseconds_per_second)%Z
  ∧ (cache_valid clock0 w1).1 = Ok true
  ∧ requested w1 = [today_key]
  ∧ requested w2 = [today_key; today_key].
Proof. vm_compute. repeat split; reflexivity. Qed.

Definition hit_world : World :=
  world {| data := VDict doc_legacy; timestamp := Some (clock0 0); ttl := 300 |}
        (Some "capped") None.

Lemma load_predictions_fast_ttl_witness :
  load hit_world = (Ok (VDict doc_legacy), ticked 1 hit_world).
Proof.
  destruct (load_predictions_fast_ttl clock0 strftime0 isoformat0 decode0
              json_loads0 hit_world) as [Hhit _].
  destruct (Hhit (VDict doc_legacy) (clock0 0)) as [H _].
  - reflexivity.
  - reflexivity.
  - vm_compute. reflexivity.
  - vm_compute. reflexivity.
  - exact H.
Defined.

Lemma load_predictions_fast_capped_witness :
  ∃ now date w',
    load (world initial_cache None (Some "capped"))
    = (Ok (capped_of doc_capped doc_items now date), w').
Proof.
  destruct (load_predictions_fast_capped clock0 strftime0 isoformat0 decode0
              json_loads0 (world initial_cache None (Some "capped"))
              doc_capped doc_items)
    as (now & date & w' & H & _).
  - vm_compute. reflexivity.
  - right. split; vm_compute; reflexivity.
  - vm_compute. reflexivity.
  - vm_compute. reflexivity.
  - vm_compute. reflexivity.
  - exists now, date, w'. exact H.
Defined.

Lemma load_predictions_fast_wholesale_witness :
  ∃ w',
    load (world initial_cache (Some "legacy") None) = (Ok (VDict doc_legacy), w')
    ∧ data (CACHE w') = VDict doc_legacy
    ∧ py_getitem (VDict doc_legacy) "total_applications" = Raise KeyError.
Proof.
  destruct (load_predictions_fast_wholesale clock0 strftime0 isoformat0 decode0
              json_loads0 str0 (world initial_cache (Some "legacy") None)
              doc_legacy)
    as (w' & H & _ & Hd & _ & _ & Hk).
  - vm_compute. reflexivity.
  - left. vm_compute. reflexivity.
  - vm_compute. reflexivity.
  - exists w'. split; [exact H|]. split; [exact Hd|].
    apply Hk. vm_compute. reflexivity.
Defined.

Lemma load_predictions_fast_nothing_witness :
  ∃ w',
    load (world initial_cache (Some "garbage") None)
    = (Ok (empty_bundle "2023-11-14T22:13:20"), w')
    ∧ CACHE w' = initial_cache
    ∧ requested w' = [today_key; yesterday_key].
Proof.
  destruct (load_predictions_fast_nothing clock0 strftime0 isoformat0 decode0
              json_loads0 str0 (world initial_cache (Some "garbage") None))
    as (w' & H & _ & _ & _ & _ & _ & _ & HC & Hr & _).
  - vm_compute. reflexivity.
  - vm_compute. reflexivity.
  - vm_compute. reflexivity.
  - exists w'. split; [exact H|]. split; [exact HC | exact Hr].
Defined.

End CacheExamples.

(** ** More on the rule-based decision and on batch scoring *)

Module RulesExtra.
Import Rules.

(** X1: A prior default on file decides alone: the other three fields are not
    even compared, so they may hold anything. *)
Theorem predict_rule_based_prior_default (m : gmap string pyval) :
  m !! "previous_loan_defaults_on_file" = Some (VStr "Yes") →
  predict_rule_based (VDict m) = Ok ("REJECTED", 0.75%float).
Proof.
  intros H. unfold predict_rule_based, py_get. rewrite H. reflexivity.
Qed.

Lemma predict_rule_based_prior_default_witness :
  predict_rule_based
    (VDict (<["previous_loan_defaults_on_file" := VStr "Yes"]>
            {["loan_percent_income" := VStr "not a number"]}))
  = Ok ("REJECTED", 0.75%float).
Proof. apply predict_rule_based_prior_default. vm_compute. reflexivity. Defined.

Ltac fin :=
  cbn; first [ split; [eauto | auto 10] | left; split; eauto ].

(** X2: On any value the rules return one of the four pairs of the table, or
    raise: a [TypeError] on a mapping (a compared field is not a number),
    an [AttributeError] on anything else. *)
Theorem predict_rule_based_outcomes (record : pyval) :
  match predict_rule_based record with
  | Ok pc =>
      (∃ m, record = VDict m)
      ∧ (pc = ("REJECTED", 0.75%float) ∨ pc = ("APPROVED", 0.80%float)
         ∨ pc = ("REJECTED", 0.70%float) ∨ pc = ("APPROVED", 0.65%float))
  | Raise e =>
      (e = TypeError ∧ ∃ m, record = VDict m)
      ∨ (e = AttributeError ∧ ∀ m, record ≠ VDict m)
  end.
Proof.
  destruct record as [| | | | | |m];
    try (cbn; right; split; [reflexivity | intros ?; discriminate]).
  unfold predict_rule_based, py_get. cbn [rbind].
  generalize (default (VInt 0) (m !! "loan_percent_income")) as lpi.
  generalize (default (VInt 0) (m !! "person_income")) as inc.
  generalize (default (VInt 0) (m !! "loan_amnt")) as amt.
  generalize (default (VStr "No") (m !! "previous_loan_defaults_on_file")) as dflt.
  intros dflt amt inc lpi.
  unfold py_or, py_and, py_gt, py_lt. cbn [rbind].
  destruct (py_eq_str dflt "Yes"); [fin|].
  destruct (as_num lpi) as [l|]; [|fin]. cbn [rbind].
  destruct (num_ltb (NFloat 0.4) l); [fin|].
  destruct (num_ltb l (NFloat 0.2)).
  - destruct (as_num inc) as [i|]; [|fin]. cbn [rbind].
    destruct (num_ltb (NInt 50000) i); [fin|].
    destruct (as_num amt) as [a|]; [|fin]. cbn [rbind].
    destruct (num_ltb (NInt 35000) a); [|fin].
    destruct (num_ltb i (NInt 40000)); fin.
  - cbn [rbind].
    destruct (as_num amt) as [a|]; [|fin]. cbn [rbind].
    destruct (num_ltb (NInt 35000) a); [|fin].
    destruct (as_num inc) as [i|]; [|fin]. cbn [rbind].
    destruct (num_ltb i (NInt 40000)); fin.
Qed.

End RulesExtra.

Module BatchExtra.
Import Rules Arith Batch BatchFacts.

Lemma for_each_app {S A} (l1 l2 : list A) (body : A → M S unit) s :
  for_each (l1 ++ l2) body s
  = match for_each l1 body s with
    | (Ok _, s') => for_each l2 body s'
    | (Raise e, s') => (Raise e, s')
    end.
Proof.
  revert s. induction l1 as [|x l1 IH]; intros s; [reflexivity|].
  cbn [app for_each]. unfold bind.
  destruct (body x s) as [[[]|e] s']; [apply IH | reflexivity].
Qed.

Lemma select_columns_missing (m : gmap string pyval) cols k :
  k ∈ cols → m !! k = None → ∃ e, select_columns m cols = Raise e.
Proof.
  induction cols as [|c rest IH]; intros Hk Hm; [by apply elem_of_nil in Hk|].
  cbn [select_columns]. apply elem_of_cons in Hk as [<- | Hk].
  - rewrite Hm. eauto.
  - destruct (m !! c); [|eauto].
    destruct (IH Hk Hm) as [e ->]. eauto.
Qed.

Section facts.

Variable clock : nat → Z.
Variable isoformat : Z → string.
Variable str_exn : exn → string.
Variable model : option Classifier.

(** X3: An element of [records] that is not a mapping ends the request with
    the server error, whatever comes before or after it: the handler of its
    turn raises again. *)
Theorem predict_batch_non_mapping_element (d : gmap string pyval)
    (before : list (gmap string pyval)) (v : pyval) (after : list pyval)
    (t0 : nat) :
  d !! "records" = Some (VList ((VDict <$> before) ++ v :: after)) →
  (∀ m, v ≠ VDict m) →
  predict_batch clock isoformat str_exn model (Ok (VDict d)) t0
  = Response 500 (VDict {["error" := VStr (str_exn AttributeError)]}).
Proof.
  intros Hd Hv.
  unfold predict_batch, predict_batch_body, bind, lift, py_get.
  rewrite Hd. cbn [default from_option id].
  assert (Ht : truthy (VList ((VDict <$> before) ++ v :: after)) = true).
  { cbn. by destruct (VDict <$> before). }
  rewrite Ht. cbn [negb py_len py_iter].
  rewrite for_each_app, for_each_dicts. cbn [for_each]. unfold bind.
  rewrite (score_record_not_dict clock isoformat model _ v _ Hv).
  reflexivity.
Qed.

(** X4: Under a loaded model, a mapping that lacks one of the fourteen feature
    columns is decided by the rules: the model is not consulted and the
    record is not skipped for that. *)
Theorem decide_missing_feature (cl : Classifier) (m : gmap string pyval)
    (k : string) :
  k ∈ feature_cols →
  m !! k = None →
  decide (Some cl) true (VDict m) = predict_rule_based (VDict m).
Proof.
  intros Hk Hm. unfold decide, model_predict, features.
  destruct (select_columns_missing m feature_cols k Hk Hm) as [e ->].
  reflexivity.
Qed.

End facts.

Lemma predict_batch_non_mapping_element_witness :
  predict_batch BatchExamples.clock0 BatchExamples.iso0 BatchExamples.str0 None
    (Ok (VDict {["records" :=
       VList [VDict BatchExamples.rec_approved; VNone;
              VDict BatchExamples.rec_rejected]]})) 0
  = Response 500 (VDict {["error" := VStr "error"]}).
Proof.
  apply (predict_batch_non_mapping_element BatchExamples.clock0
           BatchExamples.iso0 BatchExamples.str0 None _
           [BatchExamples.rec_approved] VNone [VDict BatchExamples.rec_rejected]).
  - vm_compute. reflexivity.
  - intros m. discriminate.
Defined.

Lemma decide_missing_feature_witness :
  decide (Some BatchExamples.broken_model) true (VDict BatchExamples.rec_rejected)
  = Ok ("REJECTED", 0.75%float).
Proof.
  rewrite (decide_missing_feature BatchExamples.broken_model
             BatchExamples.rec_rejected "person_age").
  - vm_compute. reflexivity.
  - apply list_elem_of_In. cbn. auto.
  - vm_compute. reflexivity.
Defined.

End BatchExtra.

(** ** More on the result cache *)

Module CacheExtra.
Import Cache CacheFacts.

#[local] Opaque read_limit.
#[local] Arguments capped_bundle : simpl never.

(** [data] and [timestamp] of the cache are set together. *)
Definition cache_consistent (c : cache) : Prop :=
  data c = VNone ↔ timestamp c = None.

Section facts.

Variable clock : nat → Z.
Variable strftime : Z → string.
Variable isoformat : Z → string.
Variable decode : list Byte.byte → option string.
Variable json_loads : string → option pyval.
Variable str_exn : exn → string.

#[local] Abbreviation attempt :=
  (Cache.attempt clock strftime isoformat decode json_loads).
#[local] Abbreviation try_days :=
  (Cache.try_days clock strftime isoformat decode json_loads).
#[local] Abbreviation load_predictions_fast :=
  (Cache.load_predictions_fast clock strftime isoformat decode json_loads).
#[local] Abbreviation get_latest :=
  (Cache.get_latest clock strftime isoformat decode json_loads str_exn).
#[local] Abbreviation key_at := (CacheFacts.key_at clock strftime).
#[local] Abbreviation fetch_doc := (CacheFacts.fetch_doc decode json_loads).
#[local] Abbreviation cached_value := (CacheFacts.cached_value clock).

(** An attempt leaves the cache as it was, or stores a value that is not
    None together with a time. *)
Lemma attempt_cache d w :
  CACHE (attempt d w).2 = CACHE w
  ∨ ∃ result now,
      CACHE (attempt d w).2
      = {| data := result; timestamp := Some now; ttl := ttl (CACHE w) |}
      ∧ result ≠ VNone.
Proof.
  unfold Cache.attempt, bind, lift, datetime_now, s3_get_object, set_cache,
    modify, ret.
  cbn [ticks bucket CACHE requested].
  repeat case_match; simplify_eq/=;
    first [ by left
          | right; eexists _, _; split; [reflexivity|];
            unfold capped_bundle; intros ?; simplify_eq/= ].
Qed.

(** A usable entry: what the lookup returns and what it costs. *)
Lemma hit_value w b t :
  data (CACHE w) = b → b ≠ VNone → timestamp (CACHE w) = Some t →
  (clock (ticks w) - t < ttl (CACHE w) * microseconds_per_second)%Z →
  cached_value w = b ∧ after_lookup w = ticked 1 w.
Proof.
  intros Hb Hn Ht Hlt. unfold CacheFacts.cached_value, after_lookup.
  rewrite Hb, Ht. apply Z.ltb_lt in Hlt. rewrite Hlt. by destruct b.
Qed.

(** An entry as old as the TTL or older is not returned by the lookup. *)
Lemma expired_value w t :
  timestamp (CACHE w) = Some t →
  (ttl (CACHE w) * microseconds_per_second ≤ clock (ticks w) - t)%Z →
  cached_value w = VNone.
Proof.
  intros Ht Hge. unfold CacheFacts.cached_value. rewrite Ht.
  apply Z.ltb_ge in Hge. rewrite Hge. by destruct (data (CACHE w)).
Qed.

Lemma load_effects w :
  ∃ result w',
    load_predictions_fast w = (Ok result, w')
    ∧ bucket w' = bucket w
    ∧ ttl (CACHE w') = ttl (CACHE w).
Proof.
  destruct (truthy (cached_value w)) eqn:Hc.
  - eexists _, _. split; [exact (load_hit _ _ _ _ _ _ Hc)|].
    by rewrite after_lookup_bucket, after_lookup_CACHE.
  - rewrite (load_miss _ _ _ _ _ _ Hc), try_days_two.
    destruct (attempt_effects clock strftime isoformat decode json_loads
                0 (after_lookup w)) as (_ & Hb0 & Ht0 & _).
    rewrite after_lookup_bucket, after_lookup_CACHE in *.
    destruct (attempt 0 (after_lookup w)) as [[r|e] w1]; cbn [snd] in *.
    + by eexists _, _.
    + destruct (attempt_effects clock strftime isoformat decode json_loads
                  1 w1) as (_ & Hb1 & Ht1 & _).
      destruct (attempt 1 w1) as [[r|e1] w2]; cbn [snd] in *.
      * eexists _, _. split; [reflexivity|]. split; congruence.
      * eexists _, _. split; [reflexivity|]. cbn. split; congruence.
Qed.

(** X5: The read path never raises: [get_latest] answers 200 in every state of
    the cache and of the bucket, and a read changes neither the bucket nor
    the TTL. *)
Theorem get_latest_always_answers w :
  ∃ result w',
    load_predictions_fast w = (Ok result, w')
    ∧ get_latest w = (Ok (Response 200 result), w')
    ∧ bucket w' = bucket w
    ∧ ttl (CACHE w') = ttl (CACHE w).
Proof.
  destruct (load_effects w) as (r & w' & Hl & Hb & Ht).
  exists r, w'. split; [exact Hl|]. split; [|by split].
  unfold Cache.get_latest, try_except, bind. rewrite Hl. reflexivity.
Qed.

(** X6: A read keeps [data] and [timestamp] of the cache set together, so the
    two tests of [get_cached_data] agree. *)
Theorem load_keeps_cache_consistent w :
  cache_consistent (CACHE w) →
  cache_consistent (CACHE (load_predictions_fast w).2).
Proof.
  intros Hc.
  assert (Hatt : ∀ d w0, cache_consistent (CACHE w0) →
                         cache_consistent (CACHE (attempt d w0).2)).
  { intros d w0 H0. destruct (attempt_cache d w0) as [-> | (r & now & -> & Hr)];
      [exact H0|]. unfold cache_consistent. cbn. split; [done | discriminate]. }
  destruct (truthy (cached_value w)) eqn:Hv.
  - rewrite (load_hit _ _ _ _ _ _ Hv). cbn [snd].
    by rewrite after_lookup_CACHE.
  - rewrite (load_miss _ _ _ _ _ _ Hv), try_days_two.
    assert (H0 : cache_consistent (CACHE (after_lookup w)))
      by (by rewrite after_lookup_CACHE).
    specialize (Hatt 0%Z _ H0) as H1.
    destruct (attempt 0 (after_lookup w)) as [[r|e] w1]; cbn [snd] in *;
      [exact H1|].
    specialize (Hatt 1%Z _ H1) as H2.
    destruct (attempt 1 w1) as [[r|e1] w2]; cbn [snd] in *; exact H2.
Qed.

(** X7: A fetched document that is not a mapping and passes the membership
    test without a match (a list with no such element, a string without
    the word) is stored in the cache, and then the attempt raises: the read
    goes on to the next partition with the document left in the cache. *)
Theorem attempt_non_mapping_document d w (doc : pyval) :
  fetch_doc (bucket w) (key_at (ticks w) d) = Some doc →
  (∀ m, doc ≠ VDict m) →
  py_contains doc "predictions" = Ok false →
  attempt d w
  = (Raise AttributeError,
     refilled doc (clock (Datatypes.S (ticks w)))
       (logged [key_at (ticks w) d] (ticked 2 w))).
Proof.
  intros H Hm Hc. unfold CacheFacts.fetch_doc in H.
  unfold Cache.attempt, bind, lift, datetime_now, s3_get_object.
  cbn [ticks bucket CACHE requested]. fold (key_at (ticks w) d).
  destruct (bucket w !! key_at (ticks w) d) as [raw|]; [|discriminate].
  cbn [mbind option_bind] in H.
  destruct (decode (take read_limit raw)) as [content|]; [|discriminate].
  cbn [mbind option_bind] in H. rewrite H, Hc.
  unfold ret, set_cache, modify.
  destruct doc; try reflexivity. by destruct (Hm m).
Qed.

(** X8: An entry exactly as old as the TTL, or older, is not served: the read
    requests today's partition first, and at most one more. *)
Theorem expired_entry_refetched w t :
  timestamp (CACHE w) = Some t →
  (ttl (CACHE w) * microseconds_per_second ≤ clock (ticks w) - t)%Z →
  ∃ rest,
    requested (load_predictions_fast w).2
    = requested w ++ key_at (ticks (after_lookup w)) 0 :: rest
    ∧ length rest ≤ 1.
Proof.
  intros Ht Hge.
  assert (Hv : truthy (cached_value w) = false)
    by (by rewrite (expired_value w t Ht Hge)).
  rewrite (load_miss _ _ _ _ _ _ Hv), try_days_two.
  destruct (attempt_effects clock strftime isoformat decode json_loads
              0 (after_lookup w)) as (Hr0 & _).
  rewrite after_lookup_requested in Hr0.
  destruct (attempt 0 (after_lookup w)) as [[r|e] w1]; cbn [snd] in *.
  - exists []. split; [exact Hr0 | cbn; lia].
  - destruct (attempt_effects clock strftime isoformat decode json_loads 1 w1)
      as (Hr1 & _).
    destruct (attempt 1 w1) as [[r|e1] w2]; cbn [snd ticked requested] in *;
      (eexists [_]; split; [rewrite Hr1, Hr0, <- app_assoc; reflexivity | cbn; lia]).
Qed.

(** X9: A refill followed by reads: after a read that fetched a document with
    predictions, every read that finds the cache as that read left it, and
    younger than the TTL, returns the same bundle and requests nothing. *)
Theorem refill_then_hit w (m : gmap string pyval) items :
  truthy (cached_value w) = false →
  fetched clock strftime decode json_loads w (VDict m) →
  m !! "predictions" = Some (VList items) →
  forallb has_decision items = true →
  stats_readable m = true →
  ∃ result w1 t,
    load_predictions_fast w = (Ok result, w1)
    ∧ timestamp (CACHE w1) = Some t
    ∧ ∀ w2,
        CACHE w2 = CACHE w1 →
        (clock (ticks w2) - t < ttl (CACHE w) * microseconds_per_second)%Z →
        load_predictions_fast w2 = (Ok result, ticked 1 w2).
Proof.
  intros Hm Hf Hp Hdec Hstats.
  destruct (load_fetched clock strftime isoformat decode json_loads
              w (VDict m) (capped_of m items) Hm Hf)
    as (now & date & w1 & Hload & Hdata & [t Hts] & _).
  { intros d w0 Hb H0. eexists _, 3, _.
    exact (attempt_capped clock strftime isoformat decode json_loads
             d w0 m items H0 Hp Hdec Hstats). }
  destruct (load_effects w) as (r' & w1' & Hl' & _ & Httl).
  rewrite Hload in Hl'. injection Hl' as <- <-.
  exists (capped_of m items now date), w1, t.
  split; [exact Hload|]. split; [exact Hts|].
  intros w2 HC Hlt.
  destruct (hit_value w2 (capped_of m items now date) t) as [Hv Hl].
  - by rewrite HC.
  - discriminate.
  - by rewrite HC.
  - by rewrite HC, Httl.
  - assert (Htr : truthy (cached_value w2) = true).
    { rewrite Hv. unfold capped_of. apply capped_bundle_truthy. }
    rewrite (load_hit _ _ _ _ _ _ Htr), Hv, Hl. reflexivity.
Qed.

End facts.

End CacheExtra.

Module CacheExtraExamples.
Import Cache CacheFacts CacheExtra CacheExamples.

Lemma load_keeps_cache_consistent_witness :
  cache_consistent (CACHE (load (world initial_cache (Some "list") None)).2).
Proof.
  apply (load_keeps_cache_consistent clock0 strftime0 isoformat0 decode0
           json_loads0 (world initial_cache (Some "list") None)).
  split; reflexivity.
Defined.

Lemma attempt_non_mapping_document_witness :
  (attempt clock0 strftime0 isoformat0 decode0 json_loads0 0
     (world initial_cache (Some "list") None)).1 = Raise AttributeError
  ∧ data (CACHE (attempt clock0 strftime0 isoformat0 decode0 json_loads0 0
                   (world initial_cache (Some "list") None)).2)
    = VList [VInt 1].
Proof.
  rewrite (attempt_non_mapping_document clock0 strftime0 isoformat0 decode0
             json_loads0 0 (world initial_cache (Some "list") None)
             (VList [VInt 1])).
  - split; reflexivity.
  - vm_compute. reflexivity.
  - intros m. discriminate.
  - vm_compute. reflexivity.
Defined.

Definition expired_world : World :=
  world {| data := VDict doc_legacy;
           timestamp := Some (clock0 0 - 300000000)%Z; ttl := 300 |}
        (Some "capped") None.

Lemma expired_entry_refetched_witness :
  ∃ rest, requested (load expired_world).2 = today_key :: rest.
Proof.
  destruct (expired_entry_refetched clock0 strftime0 isoformat0 decode0
              json_loads0 expired_world (clock0 0 - 300000000)%Z)
    as (rest & Hr & _).
  - reflexivity.
  - vm_compute. discriminate.
  - exists rest. unfold load. rewrite Hr. vm_compute. reflexivity.
Defined.

Lemma refill_then_hit_witness :
  ∃ result w1 t,
    load (world initial_cache (Some "capped") None) = (Ok result, w1)
    ∧ timestamp (CACHE w1) = Some t.
Proof.
  destruct (refill_then_hit clock0 strftime0 isoformat0 decode0 json_loads0
              (world initial_cache (Some "capped") None) doc_capped doc_items)
    as (result & w1 & t & Hload & Ht & _).
  - vm_compute. reflexivity.
  - left. vm_compute. reflexivity.
  - vm_compute. reflexivity.
  - vm_compute. reflexivity.
  - vm_compute. reflexivity.
  - exists result, w1, t. split; [exact Hload | exact Ht].
Defined.

End CacheExtraExamples.

(** ** More on the normaliser *)

Module NormalizerExtra.
Import Rules Schema Normalizer NormalizerFacts Batch BatchFacts.

(** A raw value that a pass-through field turns into a string field. *)
Definition passes_as_string (v : option pyval) : bool :=
  match v with
  | None | Some (VStr _) => true
  | _ => false
  end.

(** The mappings among the elements of a list. *)
Definition mappings (apps : list pyval) : list (gmap string pyval) :=
  omap (λ v, match v with VDict m => Some m | _ => None end) apps.

Section facts.

Variable clock : nat → Z.
Variable isoformat : Z → string.
Variable float_of_string : string → option float.
Variable int_of_string : string → option Z.

#[local] Abbreviation normalized :=
  (NormalizerFacts.normalized float_of_string int_of_string).
#[local] Abbreviation normalize :=
  (Normalizer.normalize clock isoformat float_of_string int_of_string).
#[local] Abbreviation process_one :=
  (Normalizer.process_one clock isoformat float_of_string int_of_string).
#[local] Abbreviation process_loan_applications :=
  (Normalizer.process_loan_applications clock isoformat float_of_string
     int_of_string).

Lemma normalized_twice m now now' :
  normalized (normalized m now) now' = normalized m now.
Proof. reflexivity. Qed.

(** X10: Normalising is idempotent: a record that [normalize] built is
    returned unchanged when it is normalised again, at any later time. *)
Theorem normalize_idempotent (m : gmap string pyval) (f f' : Normalizer.Frame) :
  ∃ r : gmap string pyval,
    (normalize (VDict m) f).1 = Ok (VDict r)
    ∧ (normalize (VDict r) f').1 = Ok (VDict r).
Proof.
  exists (normalized m (isoformat (clock (Normalizer.ticks f)))).
  rewrite !normalize_dict. cbn [fst]. by rewrite normalized_twice.
Qed.

(** X11: The output is a canonical record exactly when each of the nine
    pass-through fields is absent from the input or a string in it. *)
Theorem normalized_canonical_iff (m : gmap string pyval) (now : string) :
  canonical (normalized m now)
  = forallb (λ k, passes_as_string (m !! k)) string_fields.
Proof.
  unfold canonical.
  assert (Hs : ∀ k, k ∈ string_fields →
            is_str (normalized m now !! k) = passes_as_string (m !! k)).
  { intros k Hk. rewrite (normalized_string _ _ m now k Hk).
    by destruct (m !! k) as [[]|]. }
  change (forallb (λ k, is_int (normalized m now !! k)) int_fields) with true.
  change (forallb (λ k, is_float (normalized m now !! k)) float_fields) with true.
  cbn [andb]. unfold string_fields in *. cbn [forallb].
  rewrite !Hs by in_list. reflexivity.
Qed.

(** *** The loop of [process_loan_applications] *)

Lemma process_one_dict (m : gmap string pyval) (f : Normalizer.Frame) :
  process_one (VDict m) f
  = (Ok tt,
     {| processed_records :=
          processed_records f
          ++ [VDict (normalized m (isoformat (clock (Normalizer.ticks f))))];
        Normalizer.ticks := Datatypes.S (Normalizer.ticks f) |}).
Proof. reflexivity. Qed.

Lemma process_one_other (v : pyval) (f : Normalizer.Frame) :
  (∀ m, v ≠ VDict m) → process_one v f = (Ok tt, f).
Proof. intros Hv. destruct v; try reflexivity. by destruct (Hv m). Qed.

(** The records built from the elements [items], the first one at clock
    reading [t]. *)
Fixpoint processed (items : list pyval) (t : nat) : list pyval :=
  match items with
  | [] => []
  | VDict m :: rest =>
      VDict (normalized m (isoformat (clock t))) :: processed rest (Datatypes.S t)
  | _ :: rest => processed rest t
  end.

Lemma for_each_process items f :
  ∃ t',
    for_each items process_one f
    = (Ok tt, {| processed_records :=
                   processed_records f ++ processed items (Normalizer.ticks f);
                 Normalizer.ticks := t' |}).
Proof.
  revert f. induction items as [|v rest IH]; intros f.
  - exists (Normalizer.ticks f). cbn. rewrite app_nil_r. by destruct f.
  - cbn [for_each]. unfold bind.
    destruct v as [| | | | | |m];
      try (rewrite process_one_other by (intros ?; discriminate);
           destruct (IH f) as [t' ->]; by exists t').
    rewrite process_one_dict.
    destruct (IH {| processed_records :=
                      processed_records f
                      ++ [VDict (normalized m (isoformat (clock (Normalizer.ticks f))))];
                    Normalizer.ticks := Datatypes.S (Normalizer.ticks f) |})
      as [t' ->].
    exists t'. cbn. by rewrite <- app_assoc.
Qed.

Lemma processed_mappings items t :
  Forall2 (λ r m, ∃ now, r = VDict (normalized m now))
          (processed items t) (mappings items).
Proof.
  revert t. induction items as [|v rest IH]; intros t; [constructor|].
  destruct v; cbn; try apply IH. constructor; [eauto | apply IH].
Qed.

(** X12: Whatever can be iterated is processed without an error: each element
    that is a mapping gives one normalised record, in input order, and
    every other element is left out; [processed_count] is the number of
    mappings. *)
Theorem process_loan_applications_skips (applications : pyval)
    (items : list pyval) (t0 : nat) :
  py_iter applications = Ok items →
  ∃ recs now,
    (process_loan_applications applications
       {| processed_records := []; Normalizer.ticks := t0 |}).1
    = Ok (VDict (list_to_map
        [("processed_count", VInt (Z.of_nat (length (mappings items))));
         ("records", VList recs);
         ("timestamp", VStr now)]))
    ∧ Forall2 (λ r m, ∃ now, r = VDict (normalized m now)) recs (mappings items).
Proof.
  intros Hit.
  unfold Normalizer.process_loan_applications, bind, lift. rewrite Hit.
  destruct (for_each_process items
              {| processed_records := []; Normalizer.ticks := t0 |}) as [t' ->].
  cbn [processed_records Normalizer.ticks app].
  pose proof (processed_mappings items t0) as HF.
  exists (processed items t0), (isoformat (clock t')).
  split; [|exact HF]. cbn. by rewrite (Forall2_length _ _ _ HF).
Qed.

(** X13: A feed that is a JSON object instead of a list is not an error: the
    loop visits its keys, which are strings, and the summary is empty. *)
Theorem process_loan_applications_object (d : gmap string pyval) (t0 : nat) :
  ∃ now,
    (process_loan_applications (VDict d)
       {| processed_records := []; Normalizer.ticks := t0 |}).1
    = Ok (VDict (list_to_map
        [("processed_count", VInt 0); ("records", VList []);
         ("timestamp", VStr now)])).
Proof.
  unfold Normalizer.process_loan_applications, bind, lift. cbn [py_iter].
  destruct (for_each_process ((λ kv, VStr kv.1) <$> map_to_list d)
              {| processed_records := []; Normalizer.ticks := t0 |}) as [t' ->].
  cbn [processed_records Normalizer.ticks app].
  assert (Hp : ∀ (l : list (string * pyval)) t,
            processed ((λ kv, VStr kv.1) <$> l) t = []).
  { induction l as [|kv l IH]; intros t; [reflexivity | apply IH]. }
  rewrite Hp. eexists. reflexivity.
Qed.

(** *** From the normaliser to the scorer *)

(** On a record that [normalize] built the rules never raise, whatever
    the raw input was. *)
Lemma rules_total_on_normalized (m : gmap string pyval) (now : string) :
  ∃ pc, predict_rule_based (VDict (normalized m now)) = Ok pc.
Proof.
  unfold predict_rule_based, py_get.
  change (normalized m now !! "loan_percent_income")
    with (Some (VFloat (Normalizer.safe_float float_of_string
                          (default (VFloat 0) (m !! "loan_percent_income"))))).
  change (normalized m now !! "person_income")
    with (Some (VFloat (Normalizer.safe_float float_of_string
                          (default (VFloat 0) (m !! "person_income"))))).
  change (normalized m now !! "loan_amnt")
    with (Some (VFloat (Normalizer.safe_float float_of_string
                          (default (VFloat 0) (m !! "loan_amnt"))))).
  cbn [default from_option id rbind].
  unfold py_or, py_and, py_gt, py_lt. cbn [as_num rbind].
  repeat match goal with
         | |- context [if ?b then _ else _] => destruct b; cbn [rbind]
         end; eauto.
Qed.

Lemma decide_total_on_normalized (model : option Classifier) (um : bool)
    (m : gmap string pyval) (now : string) :
  is_ok (Batch.decide model um (VDict (normalized m now))) = true.
Proof.
  destruct (rules_total_on_normalized m now) as [pc Hpc].
  unfold Batch.decide. rewrite Hpc.
  destruct um, model as [cl|]; try reflexivity.
  by destruct (model_predict cl (VDict (normalized m now))).
Qed.

(** X14: A batch made of records that [normalize] built is scored completely,
    with or without a model: no record is skipped, so the predictions are
    as many as the records and [total_applications] is their number. *)
Theorem normalized_batch_fully_scored (bclock : nat → Z) (biso : Z → string)
    (str_exn : exn → string) (model : option Classifier)
    (d : gmap string pyval) (records : list (gmap string pyval)) (t0 : nat) :
  d !! "records" = Some (VList (VDict <$> records)) →
  records ≠ [] →
  Forall (λ r, ∃ m now, r = normalized m now) records →
  let resp := predict_batch bclock biso str_exn model (Ok (VDict d)) t0 in
  status resp = 200%Z
  ∧ ∃ outs,
      py_getitem (body resp) "predictions" = Ok (VList outs)
      ∧ length outs = length records
      ∧ rbind (py_getitem (body resp) "stats")
              (λ s, py_getitem s "total_applications")
        = Ok (VInt (Z.of_nat (length records))).
Proof.
  intros Hd Hne Hall resp. subst resp.
  rewrite (predict_batch_dicts bclock biso str_exn model d records t0 Hd Hne).
  cbn [status body]. split; [reflexivity|].
  destruct (run_initial bclock biso model records t0) as (outs & Hp & Hf & _).
  assert (Hs : survivors model (use_model model) records = records).
  { unfold survivors. clear -Hall.
    induction Hall as [|r l (m & now & ->) _ IH]; [reflexivity|].
    rewrite filter_cons, decide_True by apply decide_total_on_normalized.
    by rewrite IH. }
  rewrite Hs in Hf. pose proof (Forall2_length _ _ _ Hf) as Hlen.
  exists outs. rewrite bundle_predictions, bundle_stats, Hp.
  split; [reflexivity|]. split; [exact Hlen|].
  unfold stats_of. rewrite Hp, Hlen. reflexivity.
Qed.

End facts.

Lemma process_loan_applications_skips_witness :
  ∃ recs now,
    (Normalizer.process_loan_applications (λ _, 0%Z) (λ _, "now")
       (λ _, None) (λ _, None)
       (VList [VDict ∅; VInt 7; VDict {["person_age" := VInt 30]}])
       {| processed_records := []; Normalizer.ticks := 0 |}).1
    = Ok (VDict (list_to_map
        [("processed_count", VInt 2); ("records", VList recs);
         ("timestamp", VStr now)])).
Proof.
  destruct (process_loan_applications_skips (λ _, 0%Z) (λ _, "now")
              (λ _, None) (λ _, None)
              (VList [VDict ∅; VInt 7; VDict {["person_age" := VInt 30]}])
              [VDict ∅; VInt 7; VDict {["person_age" := VInt 30]}] 0)
    as (recs & now & H & _).
  - reflexivity.
  - exists recs, now. exact H.
Defined.

Lemma normalized_batch_fully_scored_witness :
  status (predict_batch BatchExamples.clock0 BatchExamples.iso0
            BatchExamples.str0 None
            (Ok (VDict {["records" :=
               VList [VDict (NormalizerFacts.normalized (λ _, None) (λ _, None)
                               {["person_income" := VStr "a lot"]} "now")]]}))
            0) = 200%Z.
Proof.
  apply (normalized_batch_fully_scored (λ _, None) (λ _, None)
           BatchExamples.clock0 BatchExamples.iso0 BatchExamples.str0 None
           _ [NormalizerFacts.normalized (λ _, None) (λ _, None)
                {["person_income" := VStr "a lot"]} "now"] 0).
  - vm_compute. reflexivity.
  - discriminate.
  - repeat constructor. eexists _, _. reflexivity.
Defined.

End NormalizerExtra.

(** ** Properties of the other endpoints *)

Module ServingFacts.
Import Batch Cache CacheFacts CacheExtra Serving.

Section facts.

Variable clock : nat → Z.
Variable strftime : Z → string.
Variable isoformat : Z → string.
Variable decode : list Byte.byte → option string.
Variable json_loads : string → option pyval.
Variable str_exn : exn → string.
Variable model : option Classifier.

#[local] Abbreviation load_predictions_fast :=
  (Cache.load_predictions_fast clock strftime isoformat decode json_loads).
#[local] Abbreviation get_summary :=
  (Serving.get_summary clock strftime isoformat decode json_loads str_exn).
#[local] Abbreviation health := (Serving.health clock isoformat model).
#[local] Abbreviation cached_value := (CacheFacts.cached_value clock).

(** X15: The summary follows the read path: when the bundle that a read returns
    is a mapping, the summary is 200 with the bundle's four counts (0 for a
    missing one) and its timestamp (the current time when it has none);
    when it is anything else the summary is the server error, although
    [get_latest] answers 200 in the same state. *)
Theorem get_summary_follows_latest w :
  ∃ result w1,
    load_predictions_fast w = (Ok result, w1)
    ∧ match result with
      | VDict m =>
          get_summary w
          = (Ok (Response 200 (VDict (list_to_map
               [("total_applications",
                 default (VInt 0) (m !! "total_applications"));
                ("approved_count", default (VInt 0) (m !! "approved_count"));
                ("rejected_count", default (VInt 0) (m !! "rejected_count"));
                ("approval_rate", default (VInt 0) (m !! "approval_rate"));
                ("timestamp",
                 default (VStr (isoformat (clock (ticks w1))))
                         (m !! "timestamp"))]))),
             ticked 1 w1)
      | _ =>
          get_summary w
          = (Ok (Response 500 (VDict {["error" := VStr (str_exn AttributeError)]})),
             w1)
      end.
Proof.
  destruct (load_effects clock strftime isoformat decode json_loads w)
    as (result & w1 & Hl & _).
  exists result, w1. split; [exact Hl|].
  unfold Serving.get_summary, try_except, bind. rewrite Hl.
  destruct result; reflexivity.
Qed.

(** Whether the lookup of [w] finds a usable entry. *)
Definition entry_usable (w : World) : Prop :=
  data (CACHE w) ≠ VNone
  ∧ ∃ t, timestamp (CACHE w) = Some t
         ∧ (clock (ticks w) - t < ttl (CACHE w) * microseconds_per_second)%Z.

Lemma cached_value_usable w : cached_value w ≠ VNone ↔ entry_usable w.
Proof.
  unfold CacheFacts.cached_value, entry_usable.
  destruct (timestamp (CACHE w)) as [t|].
  - destruct (Z.lt_ge_cases (clock (ticks w) - t)
                (ttl (CACHE w) * microseconds_per_second)) as [Hlt|Hge].
    + apply Z.ltb_lt in Hlt as Hb. rewrite Hb.
      destruct (data (CACHE w));
        (split; [intros H; split; [done | by exists t] | by intros [H _]]).
    + apply Z.ltb_ge in Hge as Hb. rewrite Hb.
      split; [by destruct (data (CACHE w))|].
      intros (_ & t' & [= <-] & Hlt). lia.
  - split; [by destruct (data (CACHE w))|]. by intros (_ & t & [=] & _).
Qed.

(** X16: [health] only reads: it answers 200, requests nothing from the bucket
    and leaves the cache as it is; it reports the model as loaded exactly
    when there is one, and the cache as valid exactly when the entry is not
    None and younger than the TTL. *)
Theorem health_only_reads w :
  ∃ valid now w',
    health w
    = (Ok (Response 200 (VDict (list_to_map
         [("status", VStr "healthy");
          ("model_loaded", VBool (bool_decide (model ≠ None)));
          ("cache_valid", VBool valid);
          ("timestamp", VStr now)]))), w')
    ∧ CACHE w' = CACHE w ∧ bucket w' = bucket w ∧ requested w' = requested w
    ∧ (valid = true ↔ entry_usable w).
Proof.
  unfold Serving.health, bind. rewrite get_cached_data_spec.
  unfold datetime_now, ret. cbn [ticks bucket CACHE requested].
  eexists _, _, _. split; [reflexivity|].
  cbn [ticks bucket CACHE requested].
  rewrite after_lookup_CACHE, after_lookup_bucket, after_lookup_requested.
  do 3 (split; [reflexivity|]).
  rewrite <- cached_value_usable.
  destruct (cached_value w); split; done.
Qed.

(** X17: [health] and the read path disagree on an entry whose bundle is empty:
    while it is younger than the TTL, [health] reports the cache as valid
    and a read nevertheless requests the bucket. *)
Theorem health_and_read_disagree w b :
  data (CACHE w) = b → b ≠ VNone → truthy b = false →
  entry_usable w →
  (∃ now w',
     health w
     = (Ok (Response 200 (VDict (list_to_map
          [("status", VStr "healthy");
           ("model_loaded", VBool (bool_decide (model ≠ None)));
           ("cache_valid", VBool true);
           ("timestamp", VStr now)]))), w'))
  ∧ ∃ key rest,
      requested (load_predictions_fast w).2 = requested w ++ key :: rest.
Proof.
  intros Hb Hn Htr (Hd & t & Ht & Hlt).
  destruct (hit_value clock w b t Hb Hn Ht Hlt) as [Hv Hl]. split.
  - unfold Serving.health, bind. rewrite get_cached_data_spec, Hv.
    unfold datetime_now, ret.
    assert (Hvalid : match b with VNone => false | _ => true end = true)
      by (by destruct b).
    rewrite Hvalid. eexists _, _. reflexivity.
  - assert (Hm : truthy (cached_value w) = false) by (by rewrite Hv).
    rewrite (load_miss _ _ _ _ _ _ Hm), try_days_two.
    destruct (attempt_effects clock strftime isoformat decode json_loads
                0 (after_lookup w)) as (Hr0 & _).
    rewrite after_lookup_requested in Hr0.
    destruct (Cache.attempt clock strftime isoformat decode json_loads 0
                (after_lookup w)) as [[r|e] w1]; cbn [snd] in *.
    + eexists _, []. exact Hr0.
    + destruct (attempt_effects clock strftime isoformat decode json_loads
                  1 w1) as (Hr1 & _).
      destruct (Cache.attempt clock strftime isoformat decode json_loads 1 w1)
        as [[r|e1] w2]; cbn [snd ticked requested] in *;
        (eexists _, [_]; rewrite Hr1, Hr0, <- app_assoc; reflexivity).
Qed.

End facts.

Lemma health_and_read_disagree_witness :
  ∃ key rest,
    requested
      (CacheExamples.load
         (CacheExamples.world
            {| data := VDict ∅; timestamp := Some (CacheExamples.clock0 0);
               ttl := 300 |} None None)).2
    = key :: rest.
Proof.
  destruct (health_and_read_disagree CacheExamples.clock0
              CacheExamples.strftime0 CacheExamples.isoformat0
              CacheExamples.decode0 CacheExamples.json_loads0 None
              (CacheExamples.world
                 {| data := VDict ∅; timestamp := Some (CacheExamples.clock0 0);
                    ttl := 300 |} None None) (VDict ∅))
    as (_ & key & rest & H).
  - reflexivity.
  - discriminate.
  - vm_compute. reflexivity.
  - split; [discriminate|]. eexists. split; [reflexivity|].
    vm_compute. reflexivity.
  - exists key, rest. exact H.
Defined.

End ServingFacts.

(** ** Properties of the hand-over between the stages *)

Module PipelineFacts.
Import Arith Batch Cache CacheFacts Pipeline.

Lemma append_cancel (s a b : string) : s +:+ a = s +:+ b → a = b.
Proof. induction s as [|c s IH]; cbn; [done|]. intros [= H]. by apply IH. Qed.

(** X18: The predictor never reads what the processor wrote: for every day the
    key the processor saves its summary under differs from the key the
    predictor loads the applications from. *)
Theorem processor_key_is_not_predictor_key (today : string) :
  processor_output_key today ≠ predictor_input_key today.
Proof.
  unfold processor_output_key, predictor_input_key. intros H.
  apply (append_cancel "processed/") in H.
  apply append_cancel in H. discriminate H.
Qed.

(** The key the predictor saves under is the key the read path requests
    for the same day. *)
Lemma predictor_key_is_partition_key (today : string) :
  predictor_output_key today = partition_key today.
Proof. reflexivity. Qed.

Section facts.

Variable pclock : nat → Z.
Variable pisoformat : Z → string.
Variable float_of_string : string → option float.

#[local] Abbreviation predict_one :=
  (Pipeline.predict_one pclock pisoformat float_of_string).
#[local] Abbreviation predict_loop :=
  (Pipeline.predict_loop pclock pisoformat float_of_string).
#[local] Abbreviation predictor_bundle :=
  (Pipeline.predictor_bundle pclock pisoformat float_of_string).

Definition decided (p : pyval) : bool :=
  decision_is "APPROVED" p || decision_is "REJECTED" p.

Lemma predict_one_ok records i pred proba f f' :
  predict_one records i pred proba f = (Ok tt, f') →
  ∃ entry,
    results f' = results f ++ [entry]
    ∧ decided entry = true
    ∧ decision_is "APPROVED" entry = (pred =? 1)%Z
    ∧ approved_count f'
      = (approved_count f + if (pred =? 1)%Z then 1 else 0)%Z
    ∧ rejected_count f'
      = (rejected_count f + if (pred =? 1)%Z then 0 else 1)%Z.
Proof.
  unfold Pipeline.predict_one, bind, lift, modify, Pipeline.datetime_now.
  intros H.
  destruct (array_index proba pred) as [c|]; [|discriminate].
  destruct (pred =? 1)%Z eqn:Ep;
    cbn [results approved_count rejected_count Pipeline.ticks] in H;
    (destruct (records !! i) as [r|]; [|discriminate];
     destruct (py_get r "application_id" _) as [aid|]; [|discriminate];
     destruct (py_get r "loan_amnt" _) as [la|]; [|discriminate];
     destruct (py_float float_of_string la) as [lf|]; [|discriminate];
     destruct (py_get r "person_income" _) as [pi|]; [|discriminate];
     destruct (py_float float_of_string pi) as [pf|]; [|discriminate];
     injection H as <-;
     cbn [results approved_count rejected_count];
     eexists; split; [reflexivity|];
     split; [reflexivity|]; split; [reflexivity|]; split; lia).
Qed.

Lemma predict_loop_ok records outputs :
  ∀ i f f',
    predict_loop records i outputs f = (Ok tt, f') →
    ∃ new,
      results f' = results f ++ new
      ∧ length new = length outputs
      ∧ forallb decided new = true
      ∧ (approved_count f'
         = approved_count f
           + Z.of_nat (length (List.filter (decision_is "APPROVED") new)))%Z
      ∧ (approved_count f' + rejected_count f'
         = approved_count f + rejected_count f + Z.of_nat (length new))%Z.
Proof.
  induction outputs as [|[pred proba] rest IH]; intros i f f' H.
  - injection H as <-. exists []. rewrite app_nil_r. cbn.
    repeat split; lia.
  - cbn [Pipeline.predict_loop] in H. unfold bind in H.
    destruct (predict_one records i pred proba f) as [[[]|e] f1] eqn:E1;
      [|discriminate].
    destruct (predict_one_ok _ _ _ _ _ _ E1) as (entry & Hr1 & Hd & Ha & Hc1 & Hc2).
    destruct (IH _ _ _ H) as (new & Hr & Hl & Hall & Hap & Hsum).
    exists (entry :: new). rewrite Hr, Hr1, <- app_assoc.
    split; [reflexivity|]. split; [cbn; lia|].
    split; [cbn; by rewrite Hd, Hall|].
    cbn [List.filter length]. rewrite Ha.
    destruct (pred =? 1)%Z; cbn [length]; split; lia.
Qed.

(** The document of the predictor, with its statistics spelled out. *)
Definition document_of (new : list pyval) (approved rejected : Z)
    (rate : pyval) (now : string) : pyval :=
  VDict (list_to_map
    [("stats", VDict (list_to_map
        [("total_applications", VInt (Z.of_nat (length new)));
         ("approved", VInt approved);
         ("rejected", VInt rejected);
         ("approval_rate", rate)]));
     ("predictions", VList new);
     ("timestamp", VStr now)]).

Lemma predictor_bundle_shape records predictions probabilities t0 doc :
  predictor_bundle records predictions probabilities t0 = Ok doc →
  ∃ new approved rejected rate now,
    doc = document_of new approved rejected rate now
    ∧ length new = length (zip predictions probabilities)
    ∧ forallb decided new = true
    ∧ approved = Z.of_nat (length (List.filter (decision_is "APPROVED") new))
    ∧ (approved + rejected)%Z = Z.of_nat (length new).
Proof.
  unfold Pipeline.predictor_bundle, bind. intros H.
  destruct (predict_loop records 0 (zip predictions probabilities) _)
    as [[[]|e] f1] eqn:E; [|discriminate].
  destruct (predict_loop_ok _ _ _ _ _ E) as (new & Hr & Hl & Hall & Hap & Hsum).
  cbn [results approved_count rejected_count app] in *.
  unfold predictor_document, bind, get, lift in H.
  destruct (approval_rate (approved_count f1) (length (results f1)))
    as [rate|]; [|discriminate].
  cbn in H. injection H as <-.
  exists new, (approved_count f1), (rejected_count f1), rate,
    (pisoformat (pclock (Pipeline.ticks f1))).
  rewrite Hr. split; [reflexivity|]. split; [exact Hl|].
  split; [exact Hall|]. split; lia.
Qed.

(** X19: What the predictor saves: one prediction for each pair of the model's
    outputs, each decided APPROVED or REJECTED; [total_applications] is
    their number, [approved] the number of APPROVED ones, and [approved]
    and [rejected] add up to the total. *)
Theorem predictor_bundle_counts records predictions probabilities t0 doc :
  predictor_bundle records predictions probabilities t0 = Ok doc →
  ∃ new approved rejected,
    py_getitem doc "predictions" = Ok (VList new)
    ∧ length new = length (zip predictions probabilities)
    ∧ forallb decided new = true
    ∧ rbind (py_getitem doc "stats") (λ s, py_getitem s "total_applications")
      = Ok (VInt (Z.of_nat (length new)))
    ∧ rbind (py_getitem doc "stats") (λ s, py_getitem s "approved")
      = Ok (VInt approved)
    ∧ rbind (py_getitem doc "stats") (λ s, py_getitem s "rejected")
      = Ok (VInt rejected)
    ∧ approved = Z.of_nat (length (List.filter (decision_is "APPROVED") new))
    ∧ (approved + rejected)%Z = Z.of_nat (length new).
Proof.
  intros H.
  destruct (predictor_bundle_shape _ _ _ _ _ H)
    as (new & a & r & rate & now & -> & Hl & Hall & Ha & Hsum).
  exists new, a, r. repeat split; try done.
Qed.

Variable clock : nat → Z.
Variable strftime : Z → string.
Variable isoformat : Z → string.
Variable decode : list Byte.byte → option string.
Variable json_loads : string → option pyval.

Lemma decided_has_decision new :
  forallb decided new = true → forallb has_decision new = true.
Proof.
  induction new as [|p new IH]; [done|]. cbn.
  intros [Hp Hn]%andb_prop. rewrite (IH Hn), andb_true_r.
  unfold decided, decision_is in Hp. unfold has_decision.
  by destruct (py_getitem p "decision").
Qed.

(** X20: The read path on a document saved by the predictor: the bundle served
    has the document's total, but its [approved_count] and
    [rejected_count] are 0 whatever the decisions are, because the
    predictor names these statistics [approved] and [rejected]. *)
Theorem predictor_counts_are_lost records predictions probabilities t0 doc w :
  predictor_bundle records predictions probabilities t0 = Ok doc →
  truthy (cached_value clock w) = false →
  fetched clock strftime decode json_loads w doc →
  ∃ bundle w',
    load_predictions_fast clock strftime isoformat decode json_loads w
    = (Ok bundle, w')
    ∧ py_getitem bundle "total_applications"
      = Ok (VInt (Z.of_nat (length (zip predictions probabilities))))
    ∧ py_getitem bundle "approved_count" = Ok (VInt 0)
    ∧ py_getitem bundle "rejected_count" = Ok (VInt 0).
Proof.
  intros Hdoc Hm Hf.
  destruct (predictor_bundle_shape _ _ _ _ _ Hdoc)
    as (new & a & r & rate & now & -> & Hl & Hall & _ & _).
  unfold document_of in Hf.
  match type of Hf with
  | fetched _ _ _ _ _ (VDict ?m) =>
      destruct (load_fetched clock strftime isoformat decode json_loads
                  w (VDict m) (capped_of m new) Hm Hf)
        as (ts & date & w' & Hload & _)
  end.
  { intros d w0 Hb H0. eexists _, 3, _.
    apply (attempt_capped clock strftime isoformat decode json_loads
             d w0 _ new H0); [reflexivity | |reflexivity].
    by apply decided_has_decision. }
  eexists _, w'. split; [exact Hload|]. rewrite <- Hl.
  repeat split; reflexivity.
Qed.

End facts.

End PipelineFacts.

Module PipelineExamples.
Import Arith Batch Cache CacheFacts Pipeline PipelineFacts.

Definition sample_records : list pyval :=
  [VDict (<["application_id" := VStr "A-1"]>
          (<["loan_amnt" := VFloat 9000]> {["person_income" := VInt 60000]}));
   VDict {["loan_amnt" := VInt 40000]}].

Definition sample_document : result pyval :=
  predictor_bundle CacheExamples.clock0 CacheExamples.isoformat0 (λ _, None)
    sample_records [1%Z; 0%Z] [[0.1; 0.9]; [0.75; 0.25]]%float 0.

Definition saved_document : pyval :=
  match sample_document with Ok doc => doc | Raise _ => VNone end.

Example sample_document_saved : sample_document = Ok saved_document.
Proof. vm_compute. reflexivity. Qed.

Example sample_document_stats :
  rbind (py_getitem saved_document "stats") (λ s, py_getitem s "approved")
  = Ok (VInt 1)
  ∧ rbind (py_getitem saved_document "stats")
          (λ s, py_getitem s "approval_rate") = Ok (VFloat 50)
  ∧ rbind (py_getitem saved_document "predictions") py_len = Ok 2%Z.
Proof. vm_compute. repeat split; reflexivity. Qed.

(** A parser that knows the saved document. *)
Definition json_loads1 (content : string) : option pyval :=
  if bool_decide (content = "saved") then Some saved_document else None.

Definition reader_world : World :=
  CacheExamples.world initial_cache (Some "saved") None.

Lemma predictor_bundle_counts_witness :
  ∃ new approved rejected,
    py_getitem saved_document "predictions" = Ok (VList new)
    ∧ (approved + rejected)%Z = Z.of_nat (length new).
Proof.
  destruct (predictor_bundle_counts CacheExamples.clock0
              CacheExamples.isoformat0 (λ _, None) sample_records [1%Z; 0%Z]
              [[0.1; 0.9]; [0.75; 0.25]]%float 0 saved_document)
    as (new & a & r & Hp & _ & _ & _ & _ & _ & _ & Hsum).
  - vm_compute. reflexivity.
  - exists new, a, r. split; [exact Hp | exact Hsum].
Defined.

Lemma predictor_counts_are_lost_witness :
  ∃ bundle w',
    load_predictions_fast CacheExamples.clock0 CacheExamples.strftime0
      CacheExamples.isoformat0 CacheExamples.decode0 json_loads1 reader_world
    = (Ok bundle, w')
    ∧ py_getitem bundle "total_applications" = Ok (VInt 2)
    ∧ py_getitem bundle "approved_count" = Ok (VInt 0).
Proof.
  destruct (predictor_counts_are_lost CacheExamples.clock0
              CacheExamples.isoformat0 (λ _, None)
              CacheExamples.clock0 CacheExamples.strftime0
              CacheExamples.isoformat0 CacheExamples.decode0 json_loads1
              sample_records [1%Z; 0%Z] [[0.1; 0.9]; [0.75; 0.25]]%float 0
              saved_document reader_world)
    as (bundle & w' & Hl & Ht & Ha & _).
  - vm_compute. reflexivity.
  - vm_compute. reflexivity.
  - left. vm_compute. reflexivity.
  - exists bundle, w'. split; [exact Hl|]. split; [exact Ht | exact Ha].
Defined.

End PipelineExamples.

(** ** Properties of the processor's choice *)

Module ProcessorFacts.
Import Processor.

Lemma insert_sorted_elem x y l : y ∈ insert_sorted x l ↔ y = x ∨ y ∈ l.
Proof.
  induction l as [|z l IH]; cbn.
  - rewrite list_elem_of_singleton. split; [by left|].
    intros [-> | H]; [done | by apply elem_of_nil in H].
  - destruct (LastModified z <=? LastModified x)%Z.
    + by rewrite elem_of_cons.
    + rewrite !elem_of_cons, IH. tauto.
Qed.

Lemma sorted_elem y files : y ∈ sorted_latest_first files ↔ y ∈ files.
Proof.
  induction files as [|x files IH]; cbn; [done|].
  rewrite insert_sorted_elem, elem_of_cons, IH. done.
Qed.

(** The head of a list that is latest first. *)
Definition head_is_latest (l : list s3_object) : Prop :=
  match l with
  | [] => True
  | h :: _ => ∀ y, y ∈ l → (LastModified y ≤ LastModified h)%Z
  end.

Lemma insert_sorted_head x l :
  head_is_latest l → head_is_latest (insert_sorted x l).
Proof.
  destruct l as [|h l]; cbn.
  - intros _ y Hy. apply list_elem_of_singleton in Hy as ->. lia.
  - intros Hh. destruct (LastModified h <=? LastModified x)%Z eqn:E.
    + apply Z.leb_le in E. cbn. intros y [-> | Hy]%elem_of_cons; [lia|].
      specialize (Hh y Hy). lia.
    + apply Z.leb_gt in E. cbn. intros y [-> | Hy]%elem_of_cons; [lia|].
      apply insert_sorted_elem in Hy as [-> | Hy]; [lia|].
      apply Hh. by right.
Qed.

Lemma sorted_head files : head_is_latest (sorted_latest_first files).
Proof.
  induction files as [|x files IH]; cbn; [done|].
  by apply insert_sorted_head.
Qed.

(** X21: With a listing, the handler processes an object of the listing whose
    key ends in [.json] and whose date no other such object exceeds; it
    raises [IndexError] exactly when no key of the listing ends in
    [.json]. *)
Theorem latest_file_is_latest (objects : list s3_object) :
  match latest_file (Some objects) with
  | Ok (Some latest) =>
      latest ∈ objects
      ∧ endswith (Key latest) ".json" = true
      ∧ ∀ obj, obj ∈ objects → endswith (Key obj) ".json" = true →
               (LastModified obj ≤ LastModified latest)%Z
  | Ok None => False
  | Raise e =>
      e = IndexError
      ∧ ∀ obj, obj ∈ objects → endswith (Key obj) ".json" = false
  end.
Proof.
  unfold latest_file.
  set (files := List.filter (λ obj, endswith (Key obj) ".json") objects).
  assert (Hfiles : ∀ obj, obj ∈ files
            ↔ obj ∈ objects ∧ endswith (Key obj) ".json" = true).
  { intros obj. unfold files. rewrite !list_elem_of_In, filter_In. done. }
  pose proof (sorted_head files) as Hh.
  pose proof (λ y, sorted_elem y files) as Hel.
  destruct (sorted_latest_first files) as [|latest rest].
  - split; [reflexivity|]. intros obj Hobj.
    destruct (endswith (Key obj) ".json") eqn:E; [|done].
    assert (Hin : obj ∈ files) by (by apply Hfiles).
    apply Hel in Hin. by apply elem_of_nil in Hin.
  - assert (Hl : latest ∈ files) by (apply Hel; by left).
    apply Hfiles in Hl as [Hl1 Hl2]. split; [exact Hl1|]. split; [exact Hl2|].
    intros obj Hobj Hjson. apply Hh, Hel, Hfiles. done.
Qed.

Example latest_file_sample :
  latest_file (Some [{| Key := "raw/20231114/data_0900.json"; LastModified := 900 |};
                     {| Key := "raw/20231114/notes.txt"; LastModified := 2000 |};
                     {| Key := "raw/20231114/data_1700.json"; LastModified := 1700 |};
                     {| Key := "raw/20231114/copy_1700.json"; LastModified := 1700 |}])
  = Ok (Some {| Key := "raw/20231114/data_1700.json"; LastModified := 1700 |}).
Proof. vm_compute. reflexivity. Qed.

Example latest_file_no_json :
  latest_file (Some [{| Key := "raw/20231114/notes.txt"; LastModified := 2000 |}])
  = Raise IndexError.
Proof. vm_compute. reflexivity. Qed.

End ProcessorFacts.
